(** * The clang completer of YouCompleteMe: request coordination

    A shallow embedding of [python/completers/cpp/clang_completer.py].
    The completer object and the editor/engine effects it triggers are a
    state; every method is a function from an environment (what the editor,
    the flags store and the engine answer during the call) and a state to an
    outcome, which is either a returned value or a raised Python exception,
    each with the state reached. *)

From Stdlib Require Import ZArith List String Ascii Lia Bool.
From stdpp Require Import base gmap strings list.

Local Open Scope string_scope.
Local Open Scope Z_scope.

(** ** Python values used by the module *)

Module Py.

(** The exceptions the module can raise by itself. *)
Inductive exn : Type :=
| AttributeError (name : string)
| IndexError
| VimError.

(** [len( s )] on a string. *)
Definition len (s : string) : Z := Z.of_nat (String.length s).

(** [s[ i ]]: a negative index counts from the end, an index outside the
    string raises [IndexError]. *)
Definition getitem (s : string) (i : Z) : exn + ascii :=
  let j := if i <? 0 then i + len s else i in
  if (j <? 0) || (len s <=? j) then inl IndexError
  else match String.get (Z.to_nat j) s with
       | Some c => inr c
       | None => inl IndexError
       end.

(** A slice bound: negative bounds count from the end, and every bound is
    clamped into [0 .. len s]. *)
Definition clamp (s : string) (i : Z) : Z :=
  let j := if i <? 0 then i + len s else i in
  Z.max 0 (Z.min j (len s)).

(** [s[ lo : hi ]]; never raises. *)
Definition slice (s : string) (lo hi : Z) : string :=
  let a := clamp s lo in
  let b := clamp s hi in
  String.substring (Z.to_nat a) (Z.to_nat (b - a)) s.

(** [sep.join( parts )]. *)
Fixpoint join (sep : string) (parts : list string) : string :=
  match parts with
  | [] => ""
  | [p] => p
  | p :: rest => String.append p (String.append sep (join sep rest))
  end.

(** [xs[ : n ]] on a list. *)
Definition take {A : Type} (n : Z) (xs : list A) : list A :=
  let m := if n <? 0 then Z.max 0 (n + Z.of_nat (List.length xs)) else n in
  firstn (Z.to_nat m) xs.

(** [xs[ -1 ]] on a list: raises [IndexError] on the empty list. *)
Definition last {A : Type} (xs : list A) : exn + A :=
  match List.rev xs with
  | [] => inl IndexError
  | x :: _ => inr x
  end.

(** [[ f( x ) for x in xs ]]: the first call that raises ends the
    comprehension, and no list is built. *)
Fixpoint comprehension {A B : Type} (f : A -> exn + B) (xs : list A)
  : exn + list B :=
  match xs with
  | [] => inr []
  | x :: rest =>
      match f x with
      | inl e => inl e
      | inr y =>
          match comprehension f rest with
          | inl e => inl e
          | inr ys => inr (y :: ys)
          end
      end
  end.

(** Truth value of a string, and of a string that may be [None]. *)
Definition truthy_str (s : string) : bool :=
  negb (String.eqb s "").

Definition truthy_opt_str (s : option string) : bool :=
  match s with
  | None => false
  | Some s => truthy_str s
  end.

End Py.

(** ** The trigger heuristic *)

(** [ShouldUseClang( start_column )]; [line] is [vim.current.line]. *)
Definition ShouldUseClang (line : string) (start_column : Z) : Py.exn + bool :=
  let previous_char_index := start_column - 1 in
  if (Py.len line =? 0) || (previous_char_index <? 0)
     || (Py.len line <=? previous_char_index)
  then inr false
  else
    match Py.getitem line previous_char_index with
    | inl e => inl e
    | inr c =>
        if Ascii.eqb c "."%char then inr true
        else if previous_char_index - 1 <? 0 then inr false
        else
          let two_previous_chars :=
            Py.slice line (previous_char_index - 1) start_column in
          if String.eqb two_previous_chars "->"
             || String.eqb two_previous_chars "::"
          then inr true
          else inr false
    end.

(** ** Data of the engine ([ycm_core]) and of the editor ([vim]) *)

Module Diagnostic.
Record t : Type := mk {
  filename_ : string;
  line_number_ : Z;
  column_number_ : Z;
  kind_ : string;
  text_ : string;
  long_formatted_text_ : string
}.
End Diagnostic.

Module CompletionData.
Record t : Type := mk {
  TextToInsertInBuffer : string;
  MainCompletionText : string;
  ExtraMenuInfo : string;
  kind_ : string;
  DetailedInfoForPreviewWindow : string
}.
End CompletionData.

Module UnsavedFile.
Record t : Type := mk {
  contents_ : string;
  length_ : Z;
  filename_ : string
}.
End UnsavedFile.

(** A buffer of the editor: iterating it yields its lines; [name] is
    [None] or a string. *)
Record Buffer : Type := {
  number : Z;
  name : option string;
  lines : list string
}.

(** The handle an asynchronous engine call returns.  A handle is named by
    the position of its call in the trace of effects. *)
Record Future : Type := { call_index : nat }.

(** The dictionaries handed to the editor, with their fixed keys. *)
Record CompletionDict : Type := {
  word : string;
  abbr : string;
  menu : string;
  kind : string;
  info : string;
  dup : Z
}.

Record DiagnosticDict : Type := {
  bufnr : Z;
  lnum : Z;
  col : Z;
  text : string;
  type : string;
  valid : Z
}.

(** What the editor, the flags store and the engine answer while one method
    of the completer runs.  [getbufvar_ft n] is the filetype of buffer [n].
    [vim_eval_int e] is [int( vim.eval( e ) )] for the text [e] of a Vim
    expression: a number, or the exception raised ([vim.error] for an
    expression Vim cannot read).  Evaluating [bufnr('f', 1)] also creates
    the buffer when it is missing; the buffer list of the editor is not
    part of this model. *)
Record Env : Type := {
  current_buffer_name : string;
  NumLinesInBuffer : Z;
  window_cursor : Z * Z;
  completion_start_column : Z;
  CurrentLineAndColumn : Z * Z;
  GetUnsavedBuffers : list Buffer;
  getbufvar_ft : Z -> string;
  vim_eval_int : string -> Py.exn + Z;
  FlagsForFile : string -> list string;
  UpdatingTranslationUnit : string -> bool;
  DiagnosticsForFile : string -> list Diagnostic.t;
  ResultsReady : Future -> bool;
  GetResults : Future -> list CompletionData.t
}.

(** The effects a method has outside the completer object, in the order
    they happen. *)
Inductive Effect : Type :=
| PostedVimMessage (message : string)
| EchoedText (message : string)
| CalledUpdateTranslationUnitAsync
    (filename : string) (files : list UnsavedFile.t) (flags : list string)
| CalledCandidatesForQueryAndLocationInFileAsync
    (query filename : string) (line column : Z)
    (files : list UnsavedFile.t) (flags : list string).

(** ** The diagnostic store: [defaultdict(lambda : defaultdict(list))] *)

Abbreviation LineIndex := (gmap Z (list Diagnostic.t)).
Abbreviation DiagStore := (gmap string (gmap Z (list Diagnostic.t))).

(** [d[ k ]] on a [defaultdict]: a missing key is inserted with the default
    value, which is returned. *)
Definition defaultdict_getitem {K V : Type} `{Countable K}
    (default : V) (k : K) (d : gmap K V) : V * gmap K V :=
  match d !! k with
  | Some v => (v, d)
  | None => (default, <[k := default]> d)
  end.

(** [structure[ filename ][ line ]]: the inner dictionary is an object of
    the outer one, so what the inner lookup inserts is seen in the store. *)
Definition store_getitem (structure : DiagStore) (filename : string) (line : Z)
  : list Diagnostic.t * DiagStore :=
  let '(by_line, structure1) := defaultdict_getitem ∅ filename structure in
  let '(diagnostics, by_line1) := defaultdict_getitem [] line by_line in
  (diagnostics, <[filename := by_line1]> structure1).

(** [structure[ filename ][ line ].append( diagnostic )]. *)
Definition store_append (structure : DiagStore) (diagnostic : Diagnostic.t)
  : DiagStore :=
  let filename := Diagnostic.filename_ diagnostic in
  let line := Diagnostic.line_number_ diagnostic in
  let '(by_line, structure1) := defaultdict_getitem ∅ filename structure in
  let '(diagnostics, by_line1) := defaultdict_getitem [] line by_line in
  <[filename := <[line := (diagnostics ++ [diagnostic])%list]> by_line1]> structure1.

Definition DiagnosticsToDiagStructure (diagnostics : list Diagnostic.t)
  : DiagStore :=
  fold_left store_append diagnostics ∅.

(** ** The completer object and the outcome of a method *)

(** The attributes of [self], and the trace of effects.  An attribute that
    [__init__] does not set is absent ([None] at the outer [option]) until a
    method assigns it. *)
Record State : Type := {
  contents_holder : list string;
  filename_holder : list string;
  last_prepared_diagnostics : list DiagnosticDict;
  parse_future : option Future;
  completions_future : option (option Future);
  diagnostic_store : option DiagStore;
  trace : list Effect
}.

Inductive Outcome (A : Type) : Type :=
| Returned (value : A) (st : State)
| Raised (e : Py.exn) (st : State).
Arguments Returned {A} value st.
Arguments Raised {A} e st.

Definition M (A : Type) : Type := State -> Outcome A.

#[global] Instance M_ret : MRet M := fun A a st => Returned a st.
#[global] Instance M_bind : MBind M := fun A B f m st =>
  match m st with
  | Returned a st1 => f a st1
  | Raised e st1 => Raised e st1
  end.

Definition raise {A : Type} (e : Py.exn) : M A := fun st => Raised e st.

Definition lift {A : Type} (r : Py.exn + A) : M A :=
  match r with
  | inl e => raise e
  | inr a => mret a
  end.

Definition state_of {A : Type} (o : Outcome A) : State :=
  match o with
  | Returned _ st => st
  | Raised _ st => st
  end.

(** Reading and assigning the attributes of [self]. *)

Definition get_state : M State := fun st => Returned st st.

Definition getattr {A : Type} (attribute : string) (field : State -> option A)
  : M A := fun st =>
  match field st with
  | Some v => Returned v st
  | None => Raised (Py.AttributeError attribute) st
  end.

Definition set_contents_holder (v : list string) : M unit := fun st =>
  Returned tt
    {| contents_holder := v;
       filename_holder := filename_holder st;
       last_prepared_diagnostics := last_prepared_diagnostics st;
       parse_future := parse_future st;
       completions_future := completions_future st;
       diagnostic_store := diagnostic_store st;
       trace := trace st |}.

Definition set_filename_holder (v : list string) : M unit := fun st =>
  Returned tt
    {| contents_holder := contents_holder st;
       filename_holder := v;
       last_prepared_diagnostics := last_prepared_diagnostics st;
       parse_future := parse_future st;
       completions_future := completions_future st;
       diagnostic_store := diagnostic_store st;
       trace := trace st |}.

Definition set_last_prepared_diagnostics (v : list DiagnosticDict) : M unit :=
  fun st =>
  Returned tt
    {| contents_holder := contents_holder st;
       filename_holder := filename_holder st;
       last_prepared_diagnostics := v;
       parse_future := parse_future st;
       completions_future := completions_future st;
       diagnostic_store := diagnostic_store st;
       trace := trace st |}.

Definition set_parse_future (v : option Future) : M unit := fun st =>
  Returned tt
    {| contents_holder := contents_holder st;
       filename_holder := filename_holder st;
       last_prepared_diagnostics := last_prepared_diagnostics st;
       parse_future := v;
       completions_future := completions_future st;
       diagnostic_store := diagnostic_store st;
       trace := trace st |}.

Definition set_completions_future (v : option Future) : M unit := fun st =>
  Returned tt
    {| contents_holder := contents_holder st;
       filename_holder := filename_holder st;
       last_prepared_diagnostics := last_prepared_diagnostics st;
       parse_future := parse_future st;
       completions_future := Some v;
       diagnostic_store := diagnostic_store st;
       trace := trace st |}.

Definition set_diagnostic_store (v : DiagStore) : M unit := fun st =>
  Returned tt
    {| contents_holder := contents_holder st;
       filename_holder := filename_holder st;
       last_prepared_diagnostics := last_prepared_diagnostics st;
       parse_future := parse_future st;
       completions_future := completions_future st;
       diagnostic_store := Some v;
       trace := trace st |}.

Definition perform (e : Effect) : M unit := fun st =>
  Returned tt
    {| contents_holder := contents_holder st;
       filename_holder := filename_holder st;
       last_prepared_diagnostics := last_prepared_diagnostics st;
       parse_future := parse_future st;
       completions_future := completions_future st;
       diagnostic_store := diagnostic_store st;
       trace := (trace st ++ [e])%list |}.

(** An asynchronous engine call: the call is recorded and its handle
    returned at once. *)
Definition dispatch (e : Effect) : M Future := fun st =>
  match perform e st with
  | Returned _ st1 => Returned {| call_index := List.length (trace st) |} st1
  | Raised x st1 => Raised x st1
  end.

Definition PostVimMessage (message : string) : M unit :=
  perform (PostedVimMessage message).

Definition EchoText (message : string) : M unit :=
  perform (EchoedText message).

(** [for x in xs: acc = body( acc, x )]. *)
Fixpoint for_each {A B : Type} (body : B -> A -> M B) (xs : list A) (acc : B)
  : M B :=
  match xs with
  | [] => mret acc
  | x :: rest => acc1 ← body acc x; for_each body rest acc1
  end.

(** ** Module constants and functions *)

Definition CLANG_FILETYPES : gset string :=
  {[ "c"; "cpp"; "objc"; "objcpp" ]}.

Definition newline : string := String (ascii_of_nat 10) EmptyString.

Definition CompletionDataToDict (completion_data : CompletionData.t)
  : CompletionDict :=
  {| word := CompletionData.TextToInsertInBuffer completion_data;
     abbr := CompletionData.MainCompletionText completion_data;
     menu := CompletionData.ExtraMenuInfo completion_data;
     kind := CompletionData.kind_ completion_data;
     info := CompletionData.DetailedInfoForPreviewWindow completion_data;
     dup := 1 |}.

(** ["bufnr('{0}', 1)".format( filename )]: the name is pasted as it is
    between the two quotes. *)
Definition bufnr_expression (filename : string) : string :=
  String.append "bufnr('" (String.append filename "', 1)").

Definition DiagnosticToDict (vim : Env) (diagnostic : Diagnostic.t)
  : Py.exn + DiagnosticDict :=
  match vim_eval_int vim
          (bufnr_expression (Diagnostic.filename_ diagnostic)) with
  | inl e => inl e
  | inr number =>
      inr {| bufnr := number;
             lnum := Diagnostic.line_number_ diagnostic;
             col := Diagnostic.column_number_ diagnostic;
             text := Diagnostic.text_ diagnostic;
             type := Diagnostic.kind_ diagnostic;
             valid := 1 |}
  end.

Definition ClangAvailableForBuffer (vim : Env) (buffer_object : Buffer) : bool :=
  let filetype := getbufvar_ft vim (number buffer_object) in
  bool_decide (filetype ∈ CLANG_FILETYPES).

(** ** The methods of [ClangCompleter] *)

(** [__init__]: neither [completions_future] nor [diagnostic_store] is
    assigned. *)
Definition ClangCompleter_init : State :=
  {| contents_holder := [];
     filename_holder := [];
     last_prepared_diagnostics := [];
     parse_future := None;
     completions_future := None;
     diagnostic_store := None;
     trace := [] |}.

(** One turn of the loop of [GetUnsavedFilesVector]; [files] is the vector
    built so far. *)
Definition GetUnsavedFilesVector_body (vim : Env)
    (files : list UnsavedFile.t) (buffer : Buffer) : M (list UnsavedFile.t) :=
  if negb (ClangAvailableForBuffer vim buffer) then mret files
  else
    let contents := Py.join newline (lines buffer) in
    match name buffer with
    | None => mret files
    | Some name =>
        if negb (Py.truthy_str contents) || negb (Py.truthy_str name)
        then mret files
        else
          st ← get_state;
          _ ← set_contents_holder (contents_holder st ++ [contents])%list;
          st ← get_state;
          _ ← set_filename_holder (filename_holder st ++ [name])%list;
          st ← get_state;
          held_contents ← lift (Py.last (contents_holder st));
          held_name ← lift (Py.last (filename_holder st));
          let unsaved_file :=
            {| UnsavedFile.contents_ := held_contents;
               UnsavedFile.length_ := Py.len held_contents;
               UnsavedFile.filename_ := held_name |} in
          mret (files ++ [unsaved_file])%list
    end.

Definition GetUnsavedFilesVector (vim : Env) : M (list UnsavedFile.t) :=
  _ ← set_contents_holder [];
  _ ← set_filename_holder [];
  for_each (GetUnsavedFilesVector_body vim) (GetUnsavedBuffers vim) [].

Definition CandidatesForQueryAsync (vim : Env) (query : string) : M unit :=
  let filename := current_buffer_name vim in
  if UpdatingTranslationUnit vim filename then
    _ ← PostVimMessage "Still parsing file, no completions yet.";
    set_completions_future None
  else
    let flags := FlagsForFile vim filename in
    if negb (0 <? Z.of_nat (List.length flags)) then
      _ ← PostVimMessage "Still no compile flags, no completions yet.";
      set_completions_future None
    else
      files ← (if negb (Py.truthy_str query)
               then GetUnsavedFilesVector vim
               else mret []);
      let line := fst (window_cursor vim) in
      let column := completion_start_column vim + 1 in
      future ← dispatch (CalledCandidatesForQueryAndLocationInFileAsync
                           query filename line column files flags);
      set_completions_future (Some future).

Definition CandidatesFromStoredRequest (vim : Env) : M (list CompletionDict) :=
  completions_future ← getattr "completions_future" completions_future;
  match completions_future with
  | None => mret []
  | Some future =>
      let results := List.map CompletionDataToDict (GetResults vim future) in
      _ ← (match results with
           | [] => PostVimMessage "No completions found; errors in the file?"
           | _ :: _ => mret tt
           end);
      mret results
  end.

Definition OnFileReadyToParse (vim : Env) : M unit :=
  if NumLinesInBuffer vim <? 5 then set_parse_future None
  else
    let filename := current_buffer_name vim in
    if UpdatingTranslationUnit vim filename then mret tt
    else
      let flags := FlagsForFile vim filename in
      if negb (0 <? Z.of_nat (List.length flags)) then set_parse_future None
      else
        files ← GetUnsavedFilesVector vim;
        future ← dispatch (CalledUpdateTranslationUnitAsync
                             filename files flags);
        set_parse_future (Some future).

Definition DiagnosticsForCurrentFileReady (vim : Env) : M bool :=
  st ← get_state;
  match parse_future st with
  | None => mret false
  | Some future => mret (ResultsReady vim future)
  end.

Definition GetDiagnosticsForCurrentFile (MAX_DIAGNOSTICS_TO_DISPLAY : Z)
    (vim : Env) : M (list DiagnosticDict) :=
  ready ← DiagnosticsForCurrentFileReady vim;
  _ ← (if ready : bool then
         let diagnostics := DiagnosticsForFile vim (current_buffer_name vim) in
         _ ← set_diagnostic_store (DiagnosticsToDiagStructure diagnostics);
         prepared ← lift (Py.comprehension (DiagnosticToDict vim)
                            (Py.take MAX_DIAGNOSTICS_TO_DISPLAY diagnostics));
         _ ← set_last_prepared_diagnostics prepared;
         set_parse_future None
       else mret tt);
  st ← get_state;
  mret (last_prepared_diagnostics st).

(** One turn of the loop of [ShowDetailedDiagnostic] on the pair
    [(closest_diagnostic, distance_to_closest_diagnostic)]. *)
Definition closest_step (current_column : Z)
    (best : option Diagnostic.t * Z) (diagnostic : Diagnostic.t)
  : option Diagnostic.t * Z :=
  let distance := Z.abs (current_column - Diagnostic.column_number_ diagnostic) in
  if distance <? snd best then (Some diagnostic, distance) else best.

Definition ShowDetailedDiagnostic (vim : Env) : M unit :=
  let current_line := fst (CurrentLineAndColumn vim) + 1 in
  let current_column := snd (CurrentLineAndColumn vim) + 1 in
  let current_file := current_buffer_name vim in
  store ← getattr "diagnostic_store" diagnostic_store;
  let '(diagnostics, store1) := store_getitem store current_file current_line in
  _ ← set_diagnostic_store store1;
  match diagnostics with
  | [] => PostVimMessage "No diagnostic for current line!"
  | _ :: _ =>
      let '(closest_diagnostic, _) :=
        fold_left (closest_step current_column) diagnostics (None, 999) in
      match closest_diagnostic with
      | None => raise (Py.AttributeError "long_formatted_text_")
      | Some diagnostic =>
          EchoText (Diagnostic.long_formatted_text_ diagnostic)
      end
  end.

Definition ShouldUseNow (line : string) (start_column : Z) : Py.exn + bool :=
  ShouldUseClang line start_column.

(** ** The decision rule of the trigger heuristic, as a specification *)

(** The rule on the 0-based index [C - 1]: the column is within the line,
    and either the character at index [C - 1] is a dot, or the two
    characters at indices [C - 2] and [C - 1] are an arrow or a scope
    operator. *)
Definition trigger_rule (line : string) (C : Z) : bool :=
  (1 <=? C) && (C <=? Py.len line)
  && (match String.get (Z.to_nat (C - 1)) line with
      | Some c => Ascii.eqb c "."%char
      | None => false
      end
      || ((2 <=? C)
          && (String.eqb (String.substring (Z.to_nat (C - 2)) 2 line) "->"
              || String.eqb (String.substring (Z.to_nat (C - 2)) 2 line) "::"))).

(** ** Views of the state used by the statements *)

(** Truth value of a sequence of flags: it is not empty. *)
Definition has_flags (flags : list string) : bool :=
  0 <? Z.of_nat (List.length flags).

(** [DiagnosticsForCurrentFileReady], as a function of the state. *)
Definition parse_ready (vim : Env) (st : State) : bool :=
  match parse_future st with
  | None => false
  | Some future => ResultsReady vim future
  end.

Definition with_holders (contents names : list string) (st : State) : State :=
  {| contents_holder := contents;
     filename_holder := names;
     last_prepared_diagnostics := last_prepared_diagnostics st;
     parse_future := parse_future st;
     completions_future := completions_future st;
     diagnostic_store := diagnostic_store st;
     trace := trace st |}.

Definition with_parse_future (v : option Future) (st : State) : State :=
  {| contents_holder := contents_holder st;
     filename_holder := filename_holder st;
     last_prepared_diagnostics := last_prepared_diagnostics st;
     parse_future := v;
     completions_future := completions_future st;
     diagnostic_store := diagnostic_store st;
     trace := trace st |}.

Definition with_diagnostic_store (v : DiagStore) (st : State) : State :=
  {| contents_holder := contents_holder st;
     filename_holder := filename_holder st;
     last_prepared_diagnostics := last_prepared_diagnostics st;
     parse_future := parse_future st;
     completions_future := completions_future st;
     diagnostic_store := Some v;
     trace := trace st |}.

(** The state a consumption of a finished parse leads to, [prepared] being
    the dictionaries made for the editor. *)
Definition consumed (prepared : list DiagnosticDict) (vim : Env) (st : State)
  : State :=
  let diagnostics := DiagnosticsForFile vim (current_buffer_name vim) in
  {| contents_holder := contents_holder st;
     filename_holder := filename_holder st;
     last_prepared_diagnostics := prepared;
     parse_future := None;
     completions_future := completions_future st;
     diagnostic_store := Some (DiagnosticsToDiagStructure diagnostics);
     trace := trace st |}.

(** Reading the index without touching it: the diagnostics recorded for a
    file and a line, none when either key is missing. *)
Definition index_lookup (store : DiagStore) (filename : string) (line : Z)
  : list Diagnostic.t :=
  default [] (store !! filename ≫= lookup line).

(** The completer holds the strings of a snapshot: its contents are in
    [contents_holder] and its name in [filename_holder]. *)
Definition retains (st : State) (file : UnsavedFile.t) : bool :=
  bool_decide (UnsavedFile.contents_ file ∈ contents_holder st)
  && bool_decide (UnsavedFile.filename_ file ∈ filename_holder st).

(** ** Specification-side definitions *)

(** The three conditions under which a buffer enters the batch. *)
Definition qualifies (vim : Env) (buffer : Buffer) : bool :=
  ClangAvailableForBuffer vim buffer
  && Py.truthy_str (Py.join newline (lines buffer))
  && Py.truthy_opt_str (name buffer).

(** The snapshot of a buffer: its lines joined with newlines, under its
    name. *)
Definition snapshot_of (buffer : Buffer) : UnsavedFile.t :=
  {| UnsavedFile.contents_ := Py.join newline (lines buffer);
     UnsavedFile.length_ := Py.len (Py.join newline (lines buffer));
     UnsavedFile.filename_ := default "" (name buffer) |}.

(** A diagnostic is on a given file and line. *)
Definition located (filename : string) (line : Z) (d : Diagnostic.t) : bool :=
  bool_decide (Diagnostic.filename_ d = filename)
  && bool_decide (Diagnostic.line_number_ d = line).

(** The distance the scan compares. *)
Definition distance (current_column : Z) (d : Diagnostic.t) : Z :=
  Z.abs (current_column - Diagnostic.column_number_ d).

(** What holds of the pair [(closest_diagnostic,
    distance_to_closest_diagnostic)] once the diagnostics [seen] have been
    scanned: without a closest diagnostic, all of them are 999 columns away
    or more; with one, it is the first of [seen] at the least distance, and
    that distance is below 999. *)
Definition scanned (current_column : Z) (seen : list Diagnostic.t)
    (best : option Diagnostic.t * Z) : Prop :=
  match fst best with
  | None =>
      snd best = 999
      /\ Forall (fun e => 999 <= distance current_column e) seen
  | Some d =>
      snd best = distance current_column d
      /\ distance current_column d < 999
      /\ exists before after,
           seen = (before ++ d :: after)%list
           /\ Forall (fun e => distance current_column d
                               < distance current_column e) before
           /\ Forall (fun e => distance current_column d
                               <= distance current_column e) after
  end.

(** ** Sample editor sessions *)

Definition a_cpp : Buffer :=
  {| number := 1; name := Some "a.cpp";
     lines := ["struct S { int f; };"; "S s;"; "int main() {"; "  s."; "}"] |}.

Definition notes_txt : Buffer :=
  {| number := 2; name := Some "notes.txt"; lines := ["todo"] |}.

(** The editor on [a.cpp], modified and not yet written, with flags known
    and the engine idle. *)
Definition editing_a_cpp : Env :=
  {| current_buffer_name := "a.cpp";
     NumLinesInBuffer := 5;
     window_cursor := (4, 4);
     completion_start_column := 4;
     CurrentLineAndColumn := (3, 4);
     GetUnsavedBuffers := [a_cpp; notes_txt];
     getbufvar_ft := fun n => if n =? 1 then "cpp" else "text";
     vim_eval_int := fun _ => inr 1;
     FlagsForFile := fun _ => ["-x"; "c++"];
     UpdatingTranslationUnit := fun _ => false;
     DiagnosticsForFile := fun _ => [];
     ResultsReady := fun _ => false;
     GetResults := fun _ => [] |}.

(** The same editor once every buffer has been written to disk. *)
Definition after_write : Env :=
  {| current_buffer_name := "a.cpp";
     NumLinesInBuffer := 5;
     window_cursor := (4, 4);
     completion_start_column := 4;
     CurrentLineAndColumn := (3, 4);
     GetUnsavedBuffers := [];
     getbufvar_ft := fun n => if n =? 1 then "cpp" else "text";
     vim_eval_int := fun _ => inr 1;
     FlagsForFile := fun _ => ["-x"; "c++"];
     UpdatingTranslationUnit := fun _ => false;
     DiagnosticsForFile := fun _ => [];
     ResultsReady := fun _ => false;
     GetResults := fun _ => [] |}.

Definition b_cpp : Buffer :=
  {| number := 3; name := Some "b.cpp";
     lines := ["int g();"; "int h() {"; "  return g();"; "}"; ""] |}.

(** The editor after [a.cpp] has been written and the user has moved to
    [b.cpp], modified, while the engine is still parsing [a.cpp]. *)
Definition moved_to_b_cpp : Env :=
  {| current_buffer_name := "b.cpp";
     NumLinesInBuffer := 5;
     window_cursor := (1, 0);
     completion_start_column := 0;
     CurrentLineAndColumn := (0, 0);
     GetUnsavedBuffers := [b_cpp];
     getbufvar_ft := fun _ => "cpp";
     vim_eval_int := fun _ => inr 3;
     FlagsForFile := fun _ => ["-x"; "c++"];
     UpdatingTranslationUnit := fun filename => String.eqb filename "a.cpp";
     DiagnosticsForFile := fun _ => [];
     ResultsReady := fun _ => false;
     GetResults := fun _ => [] |}.

(** The editor on a buffer cut down to four lines while the engine is still
    parsing it. *)
Definition four_lines_while_parsing : Env :=
  {| current_buffer_name := "a.cpp";
     NumLinesInBuffer := 4;
     window_cursor := (4, 4);
     completion_start_column := 4;
     CurrentLineAndColumn := (3, 4);
     GetUnsavedBuffers := [a_cpp];
     getbufvar_ft := fun _ => "cpp";
     vim_eval_int := fun _ => inr 1;
     FlagsForFile := fun _ => ["-x"; "c++"];
     UpdatingTranslationUnit := fun _ => true;
     DiagnosticsForFile := fun _ => [];
     ResultsReady := fun _ => false;
     GetResults := fun _ => [] |}.

(** A completer whose parse request is pending. *)
Definition parse_pending : State :=
  {| contents_holder := [];
     filename_holder := [];
     last_prepared_diagnostics := [];
     parse_future := Some {| call_index := 0 |};
     completions_future := Some None;
     diagnostic_store := None;
     trace := [CalledUpdateTranslationUnitAsync "a.cpp" [] ["-x"; "c++"]] |}.

Definition diag (filename : string) (line column : Z) (long_text : string)
  : Diagnostic.t :=
  {| Diagnostic.filename_ := filename;
     Diagnostic.line_number_ := line;
     Diagnostic.column_number_ := column;
     Diagnostic.kind_ := "E";
     Diagnostic.text_ := "error";
     Diagnostic.long_formatted_text_ := long_text |}.

Definition first_parse : list Diagnostic.t :=
  [diag "a.cpp" 3 2 "first"; diag "a.cpp" 3 10 "second";
   diag "a.cpp" 7 1 "third"].

Definition second_parse : list Diagnostic.t :=
  [diag "a.cpp" 3 2 "first"].

(** The editor when the engine reports a finished parse with the given
    diagnostics; the cursor is at the 0-based position [cursor]. *)
Definition parse_finished (diagnostics : list Diagnostic.t) (cursor : Z * Z)
  : Env :=
  {| current_buffer_name := "a.cpp";
     NumLinesInBuffer := 8;
     window_cursor := (fst cursor + 1, snd cursor);
     completion_start_column := 0;
     CurrentLineAndColumn := cursor;
     GetUnsavedBuffers := [a_cpp];
     getbufvar_ft := fun _ => "cpp";
     vim_eval_int := fun _ => inr 1;
     FlagsForFile := fun _ => ["-x"; "c++"];
     UpdatingTranslationUnit := fun _ => false;
     DiagnosticsForFile := fun _ => diagnostics;
     ResultsReady := fun _ => true;
     GetResults := fun _ => [] |}.

(** A completer holding the index of the first parse, with a new parse
    request pending. *)
Definition reparse_pending : State :=
  {| contents_holder := [];
     filename_holder := [];
     last_prepared_diagnostics := [];
     parse_future := Some {| call_index := 1 |};
     completions_future := Some None;
     diagnostic_store := Some (DiagnosticsToDiagStructure first_parse);
     trace := [CalledUpdateTranslationUnitAsync "a.cpp" [] ["-x"; "c++"];
               CalledUpdateTranslationUnitAsync "a.cpp" [] ["-x"; "c++"]] |}.

(** A completer whose index has one diagnostic, on line 3 of [a.cpp] at
    column 1200. *)
Definition far_diagnostic_indexed : State :=
  {| contents_holder := [];
     filename_holder := [];
     last_prepared_diagnostics := [];
     parse_future := None;
     completions_future := Some None;
     diagnostic_store :=
       Some (DiagnosticsToDiagStructure [diag "a.cpp" 3 1200 "far"]);
     trace := [] |}.

(** The text typed up to the cursor ends with one of the three triggers. *)
Definition ends_with_trigger (p : string) : Prop :=
  exists q, p = String.append q "."
            \/ p = String.append q "->"
            \/ p = String.append q "::".

(** A snapshot the engine can use: it has contents and a name, and its
    recorded length is the length of its contents. *)
Definition snapshot_ok (file : UnsavedFile.t) : Prop :=
  UnsavedFile.contents_ file <> ""
  /\ UnsavedFile.filename_ file <> ""
  /\ UnsavedFile.length_ file = Py.len (UnsavedFile.contents_ file)
  /\ 0 < UnsavedFile.length_ file.

(** The editor on [a.cpp] when the user has typed the start [s] of a name
    after column 2. *)
Definition completing_name : Env :=
  {| current_buffer_name := "a.cpp";
     NumLinesInBuffer := 5;
     window_cursor := (4, 3);
     completion_start_column := 2;
     CurrentLineAndColumn := (3, 3);
     GetUnsavedBuffers := [a_cpp; notes_txt];
     getbufvar_ft := fun n => if n =? 1 then "cpp" else "text";
     vim_eval_int := fun _ => inr 1;
     FlagsForFile := fun _ => ["-x"; "c++"];
     UpdatingTranslationUnit := fun _ => false;
     DiagnosticsForFile := fun _ => [];
     ResultsReady := fun _ => false;
     GetResults := fun _ =>
       [ {| CompletionData.TextToInsertInBuffer := "foo";
            CompletionData.MainCompletionText := "foo(int)";
            CompletionData.ExtraMenuInfo := "int foo(int)";
            CompletionData.kind_ := "f";
            CompletionData.DetailedInfoForPreviewWindow := "docs" |} ] |}.

(** A completer whose completion request is pending. *)
Definition completion_pending : State :=
  {| contents_holder := [];
     filename_holder := [];
     last_prepared_diagnostics := [];
     parse_future := None;
     completions_future := Some (Some {| call_index := 0 |});
     diagnostic_store := None;
     trace := [CalledCandidatesForQueryAndLocationInFileAsync "s" "a.cpp" 4 3
                 [] ["-x"; "c++"]] |}.

(** ** Sessions: the calls the editor makes, one after the other *)

(** A call of a method of the completer. *)
Inductive Call : Type :=
| CallCandidatesForQueryAsync (query : string)
| CallCandidatesFromStoredRequest
| CallOnFileReadyToParse
| CallDiagnosticsForCurrentFileReady
| CallGetDiagnosticsForCurrentFile
| CallShowDetailedDiagnostic.

(** The completer after a call; an exception goes to the caller and the
    completer stays as the method left it. *)
Definition run_call (MAX_DIAGNOSTICS_TO_DISPLAY : Z) (call : Call) (vim : Env)
    (st : State) : State :=
  match call with
  | CallCandidatesForQueryAsync query =>
      state_of (CandidatesForQueryAsync vim query st)
  | CallCandidatesFromStoredRequest =>
      state_of (CandidatesFromStoredRequest vim st)
  | CallOnFileReadyToParse =>
      state_of (OnFileReadyToParse vim st)
  | CallDiagnosticsForCurrentFileReady =>
      state_of (DiagnosticsForCurrentFileReady vim st)
  | CallGetDiagnosticsForCurrentFile =>
      state_of (GetDiagnosticsForCurrentFile MAX_DIAGNOSTICS_TO_DISPLAY vim st)
  | CallShowDetailedDiagnostic =>
      state_of (ShowDetailedDiagnostic vim st)
  end.

(** The completer after a sequence of calls, each made with what the editor
    and the engine answer at that moment. *)
Fixpoint run_session (MAX_DIAGNOSTICS_TO_DISPLAY : Z)
    (session : list (Call * Env)) (st : State) : State :=
  match session with
  | [] => st
  | (call, vim) :: rest =>
      run_session MAX_DIAGNOSTICS_TO_DISPLAY rest
        (run_call MAX_DIAGNOSTICS_TO_DISPLAY call vim st)
  end.

Definition is_completion_request (call : Call) : bool :=
  match call with
  | CallCandidatesForQueryAsync _ => true
  | _ => false
  end.

(** An engine call as the completer should make it: with flags, with
    snapshots the engine can use, and with no snapshot at all when a query
    is given. *)
Definition engine_call_ok (e : Effect) : Prop :=
  match e with
  | PostedVimMessage _ => True
  | EchoedText _ => True
  | CalledUpdateTranslationUnitAsync _ files flags =>
      flags <> [] /\ Forall snapshot_ok files
  | CalledCandidatesForQueryAndLocationInFileAsync query _ _ _ files flags =>
      flags <> [] /\ Forall snapshot_ok files /\ (query <> "" -> files = [])
  end.

(** A parse handle names a translation-unit update of the trace, and a
    completion handle names a completion query of the trace. *)
Definition names_parse_call (tr : list Effect) (handle : option Future)
  : Prop :=
  match handle with
  | None => True
  | Some future =>
      exists filename files flags,
        tr !! call_index future
        = Some (CalledUpdateTranslationUnitAsync filename files flags)
  end.

Definition names_completion_call (tr : list Effect)
    (handle : option (option Future)) : Prop :=
  match handle with
  | Some (Some future) =>
      exists query filename line column files flags,
        tr !! call_index future
        = Some (CalledCandidatesForQueryAndLocationInFileAsync
                  query filename line column files flags)
  | _ => True
  end.

(** What the editor is asked for a diagnostic, and the dictionary it is
    shown as: the number the editor gives for [bufnr('<file name>', 1)],
    the line, the column, the text and the kind of the diagnostic, and a
    validity flag of 1. *)
Definition editor_answers (vim : Env) (d : Diagnostic.t) : Prop :=
  exists number,
    vim_eval_int vim
      (String.append "bufnr('"
         (String.append (Diagnostic.filename_ d) "', 1)"))
    = inr number.

Definition shown_as (vim : Env) (d : Diagnostic.t) (dict : DiagnosticDict)
  : Prop :=
  vim_eval_int vim
    (String.append "bufnr('" (String.append (Diagnostic.filename_ d) "', 1)"))
  = inr (bufnr dict)
  /\ lnum dict = Diagnostic.line_number_ d
  /\ col dict = Diagnostic.column_number_ d
  /\ text dict = Diagnostic.text_ d
  /\ type dict = Diagnostic.kind_ d
  /\ valid dict = 1.

(** The editor with [b.cpp] current when the engine has finished the parse
    of [a.cpp]: the engine has the diagnostics of the first parse for
    [a.cpp] and none for [b.cpp]. *)
Definition fetched_from_b_cpp : Env :=
  {| current_buffer_name := "b.cpp";
     NumLinesInBuffer := 5;
     window_cursor := (1, 0);
     completion_start_column := 0;
     CurrentLineAndColumn := (0, 0);
     GetUnsavedBuffers := [b_cpp];
     getbufvar_ft := fun _ => "cpp";
     vim_eval_int := fun _ => inr 3;
     FlagsForFile := fun _ => ["-x"; "c++"];
     UpdatingTranslationUnit := fun _ => false;
     DiagnosticsForFile :=
       fun filename => if String.eqb filename "a.cpp" then first_parse else [];
     ResultsReady := fun _ => true;
     GetResults := fun _ => [] |}.

(** The editor when the engine has finished a parse with one diagnostic, in
    a file whose name has an apostrophe.  Vim reads ['o'] as a whole
    literal string, cannot read what follows it, and [vim.eval] raises. *)
Definition parse_finished_apostrophe : Env :=
  {| current_buffer_name := "o'neil.cpp";
     NumLinesInBuffer := 8;
     window_cursor := (1, 0);
     completion_start_column := 0;
     CurrentLineAndColumn := (0, 0);
     GetUnsavedBuffers := [];
     getbufvar_ft := fun _ => "cpp";
     vim_eval_int :=
       fun expression =>
         if String.eqb expression "bufnr('o'neil.cpp', 1)"
         then inl Py.VimError else inr 1;
     FlagsForFile := fun _ => ["-x"; "c++"];
     UpdatingTranslationUnit := fun _ => false;
     DiagnosticsForFile := fun _ => [diag "o'neil.cpp" 3 2 "first"];
     ResultsReady := fun _ => true;
     GetResults := fun _ => [] |}.

(** The decision rule on the 1-based column [C] of the cursor: there is a
    character before the cursor (at the 1-based column [C - 1], index
    [C - 2]) and it is a dot, or the two characters before the cursor are an
    arrow or a scope operator. *)
Definition cursor_rule (line : string) (C : Z) : bool :=
  (2 <=? C) && (C <=? Py.len line + 1)
  && (match String.get (Z.to_nat (C - 2)) line with
      | Some c => Ascii.eqb c "."%char
      | None => false
      end
      || ((3 <=? C)
          && (String.eqb (String.substring (Z.to_nat (C - 3)) 2 line) "->"
              || String.eqb (String.substring (Z.to_nat (C - 3)) 2 line) "::"))).

(** The supported set of filetypes, spelled out. *)
Definition supported_filetype (filetype : string) : bool :=
  String.eqb filetype "c" || String.eqb filetype "cpp"
  || String.eqb filetype "objc" || String.eqb filetype "objcpp".

(** The lines of a buffer with one newline character between them. *)
Definition joined_lines (buffer : Buffer) : string :=
  String.concat (String "010"%char EmptyString) (lines buffer).

(** The conditions for a buffer to enter the batch: its filetype is a
    supported one, its joined lines are not the empty string, and it has a
    name that is not the empty string. *)
Definition enters_batch (vim : Env) (buffer : Buffer) : bool :=
  supported_filetype (getbufvar_ft vim (number buffer))
  && negb (String.eqb (joined_lines buffer) "")
  && match name buffer with
     | Some n => negb (String.eqb n "")
     | None => false
     end.

(** The snapshot a buffer is to give: its joined lines, their length, and
    its name. *)
Definition buffer_snapshot (buffer : Buffer) : UnsavedFile.t :=
  {| UnsavedFile.contents_ := joined_lines buffer;
     UnsavedFile.length_ := Z.of_nat (String.length (joined_lines buffer));
     UnsavedFile.filename_ :=
       match name buffer with
       | Some n => n
       | None => ""
       end |}.

(** * Properties *)

(** ** Python helpers *)

Lemma get_in_range (s : string) (n : nat) :
  (n < String.length s)%nat -> exists c, String.get n s = Some c.
Proof.
  revert n. induction s as [|a s IH]; intros n Hn; simpl in Hn.
  - lia.
  - destruct n as [|n]; simpl.
    + eauto.
    + apply IH. lia.
Qed.

Lemma getitem_in_range (s : string) (i : Z) :
  0 <= i < Py.len s ->
  exists c, String.get (Z.to_nat i) s = Some c /\ Py.getitem s i = inr c.
Proof.
  intros Hi. unfold Py.getitem.
  destruct (Z.ltb_spec i 0) as [?|_]; [lia|].
  destruct (Z.ltb_spec i 0) as [?|_]; [lia|].
  destruct (Z.leb_spec (Py.len s) i) as [?|_]; [lia|]. simpl.
  destruct (get_in_range s (Z.to_nat i)) as [c Hc].
  - unfold Py.len in Hi. lia.
  - exists c. rewrite Hc. auto.
Qed.

Lemma clamp_in_range (s : string) (i : Z) :
  0 <= i <= Py.len s -> Py.clamp s i = i.
Proof.
  intros Hi. unfold Py.clamp.
  destruct (Z.ltb_spec i 0); lia.
Qed.

Lemma slice_in_range (s : string) (lo hi : Z) :
  0 <= lo <= hi -> hi <= Py.len s ->
  Py.slice s lo hi = String.substring (Z.to_nat lo) (Z.to_nat (hi - lo)) s.
Proof.
  intros Hlo Hhi. unfold Py.slice.
  rewrite !clamp_in_range by lia. reflexivity.
Qed.

(** ** The trigger heuristic *)

Lemma ShouldUseClang_refines (line : string) (C : Z) :
  ShouldUseClang line C = inr (trigger_rule line C).
Proof.
  unfold ShouldUseClang, trigger_rule.
  destruct (Z.eqb_spec (Py.len line) 0) as [Hz|Hz]; simpl.
  { destruct (Z.leb_spec 1 C); simpl; [|reflexivity].
    destruct (Z.leb_spec C (Py.len line)); simpl; [lia|reflexivity]. }
  destruct (Z.ltb_spec (C - 1) 0) as [Hneg|Hneg]; simpl.
  { destruct (Z.leb_spec 1 C); simpl; [lia|reflexivity]. }
  destruct (Z.leb_spec (Py.len line) (C - 1)) as [Hbig|Hbig]; simpl.
  { destruct (Z.leb_spec 1 C); simpl; [|reflexivity].
    destruct (Z.leb_spec C (Py.len line)); simpl; [lia|reflexivity]. }
  destruct (Z.leb_spec 1 C); [|lia].
  destruct (Z.leb_spec C (Py.len line)); [|lia]. simpl.
  destruct (getitem_in_range line (C - 1)) as (c & Hget & Hitem); [lia|].
  rewrite Hitem, Hget.
  destruct (Ascii.eqb c "."); simpl; [reflexivity|].
  destruct (Z.ltb_spec (C - 1 - 1) 0) as [Hone|Hone].
  { destruct (Z.leb_spec 2 C); [lia|reflexivity]. }
  destruct (Z.leb_spec 2 C); [|lia]. simpl.
  rewrite slice_in_range by lia.
  replace (C - 1 - 1) with (C - 2) by lia.
  replace (Z.to_nat (C - (C - 2))) with 2%nat by lia.
  destruct (_ || _); reflexivity.
Qed.

Lemma trigger_rule_cursor_rule (line : string) (C : Z) :
  trigger_rule line (C - 1) = cursor_rule line C.
Proof.
  unfold trigger_rule, cursor_rule.
  replace (C - 1 - 1) with (C - 2) by lia.
  replace (C - 1 - 2) with (C - 3) by lia.
  replace (1 <=? C - 1) with (2 <=? C)
    by (destruct (Z.leb_spec 2 C), (Z.leb_spec 1 (C - 1)); lia || reflexivity).
  replace (C - 1 <=? Py.len line) with (C <=? Py.len line + 1)
    by (destruct (Z.leb_spec C (Py.len line + 1)),
          (Z.leb_spec (C - 1) (Py.len line)); lia || reflexivity).
  replace (2 <=? C - 1) with (3 <=? C)
    by (destruct (Z.leb_spec 3 C), (Z.leb_spec 2 (C - 1)); lia || reflexivity).
  reflexivity.
Qed.

(** C1: for every line and every 1-based cursor column [C], which the
    editor passes as the 0-based start column [C - 1], [ShouldUseClang]
    never raises and answers true exactly when the character just before
    the cursor is a dot or the two characters just before the cursor are
    [->] or [::]; it answers false for every column out of range (below 1 or
    more than one past the end of the line).  It answers true for [foo.] at
    column 5 and for [foo->] at column 6, false for [foo:] at column 5 and
    for [f] at column 0. *)
Theorem ShouldUseClang_cursor_column :
  (forall line C, ShouldUseClang line (C - 1) = inr (cursor_rule line C))
  /\ (forall line C, ((C <? 1) || (Py.len line + 1 <? C)) = true ->
        ShouldUseClang line (C - 1) = inr false)
  /\ ShouldUseClang "foo." (5 - 1) = inr true
  /\ ShouldUseClang "foo->" (6 - 1) = inr true
  /\ ShouldUseClang "foo:" (5 - 1) = inr false
  /\ ShouldUseClang "f" (0 - 1) = inr false.
Proof.
  assert (Hrule : forall line C,
            ShouldUseClang line (C - 1) = inr (cursor_rule line C)).
  { intros line C.
    now rewrite ShouldUseClang_refines, trigger_rule_cursor_rule. }
  split; [exact Hrule|].
  split; [|repeat split; reflexivity].
  intros line C Hout. rewrite Hrule. f_equal. unfold cursor_rule.
  apply orb_true_iff in Hout as [H|H].
  - apply Z.ltb_lt in H. destruct (Z.leb_spec 2 C); [lia|reflexivity].
  - apply Z.ltb_lt in H.
    destruct (Z.leb_spec C (Py.len line + 1)); [lia|].
    now rewrite andb_false_r.
Qed.

Lemma ShouldUseClang_cursor_column_witness :
  ShouldUseClang "ab" (7 - 1) = inr false.
Proof.
  apply (proj1 (proj2 ShouldUseClang_cursor_column) "ab" 7). reflexivity.
Defined.

(** ** The snapshot builder *)

Lemma last_snoc {A : Type} (xs : list A) (x : A) :
  Py.last (xs ++ [x])%list = inr x.
Proof. unfold Py.last. rewrite rev_unit. reflexivity. Qed.

Ltac run_M :=
  unfold mbind, M_bind, mret, M_ret, lift, get_state, set_contents_holder,
    set_filename_holder; simpl.

Lemma GetUnsavedFilesVector_body_skips vim files buffer st :
  qualifies vim buffer = false ->
  GetUnsavedFilesVector_body vim files buffer st = Returned files st.
Proof.
  unfold qualifies, GetUnsavedFilesVector_body. intros Hq.
  destruct (ClangAvailableForBuffer vim buffer); simpl in *; [|reflexivity].
  destruct (name buffer) as [n|]; simpl in *; [|reflexivity].
  destruct (Py.truthy_str (Py.join newline (lines buffer))); simpl in *;
    [|reflexivity].
  rewrite Hq. reflexivity.
Qed.

Lemma GetUnsavedFilesVector_body_takes vim files buffer st :
  qualifies vim buffer = true ->
  GetUnsavedFilesVector_body vim files buffer st =
  Returned (files ++ [snapshot_of buffer])%list
    (with_holders
       (contents_holder st ++ [UnsavedFile.contents_ (snapshot_of buffer)])%list
       (filename_holder st ++ [UnsavedFile.filename_ (snapshot_of buffer)])%list
       st).
Proof.
  unfold qualifies, GetUnsavedFilesVector_body, snapshot_of. intros Hq.
  apply andb_true_iff in Hq as [Hq Hname].
  apply andb_true_iff in Hq as [Hft Hcontents].
  rewrite Hft. simpl.
  destruct (name buffer) as [n|]; simpl in *; [|discriminate].
  rewrite Hcontents, Hname. simpl. run_M.
  rewrite !last_snoc. reflexivity.
Qed.

Lemma for_each_GetUnsavedFilesVector_body vim buffers :
  forall files st,
    for_each (GetUnsavedFilesVector_body vim) buffers files st =
    Returned
      (files ++ List.map snapshot_of (List.filter (qualifies vim) buffers))%list
      (with_holders
         (contents_holder st ++
            List.map (fun b => UnsavedFile.contents_ (snapshot_of b))
              (List.filter (qualifies vim) buffers))%list
         (filename_holder st ++
            List.map (fun b => UnsavedFile.filename_ (snapshot_of b))
              (List.filter (qualifies vim) buffers))%list
         st).
Proof.
  induction buffers as [|buffer rest IH]; intros files st; simpl.
  - unfold mret, M_ret, with_holders. rewrite !app_nil_r.
    destruct st; reflexivity.
  - unfold mbind, M_bind.
    destruct (qualifies vim buffer) eqn:Hq.
    + rewrite GetUnsavedFilesVector_body_takes by exact Hq.
      rewrite IH. simpl. unfold with_holders; simpl.
      rewrite <- !app_assoc. reflexivity.
    + rewrite GetUnsavedFilesVector_body_skips by exact Hq.
      apply IH.
Qed.

Lemma GetUnsavedFilesVector_run (vim : Env) (st : State) :
  let chosen := List.filter (qualifies vim) (GetUnsavedBuffers vim) in
  GetUnsavedFilesVector vim st
  = Returned (List.map snapshot_of chosen)
      (with_holders
         (List.map (fun b => UnsavedFile.contents_ (snapshot_of b)) chosen)
         (List.map (fun b => UnsavedFile.filename_ (snapshot_of b)) chosen)
         st).
Proof.
  intros chosen. unfold GetUnsavedFilesVector. run_M.
  rewrite for_each_GetUnsavedFilesVector_body. reflexivity.
Qed.

Lemma join_concat (sep : string) (parts : list string) :
  Py.join sep parts = String.concat sep parts.
Proof.
  induction parts as [|p rest IH]; [reflexivity|].
  destruct rest as [|q rest]; [reflexivity|].
  change (Py.join sep (p :: q :: rest))
    with (String.append p (String.append sep (Py.join sep (q :: rest)))).
  rewrite IH. reflexivity.
Qed.

Lemma ClangAvailableForBuffer_supported (vim : Env) (buffer : Buffer) :
  ClangAvailableForBuffer vim buffer
  = supported_filetype (getbufvar_ft vim (number buffer)).
Proof.
  unfold ClangAvailableForBuffer, supported_filetype, CLANG_FILETYPES.
  generalize (getbufvar_ft vim (number buffer)). intros filetype.
  destruct (String.eqb_spec filetype "c") as [->|Hc];
    [apply bool_decide_eq_true_2; set_solver|].
  destruct (String.eqb_spec filetype "cpp") as [->|Hcpp];
    [apply bool_decide_eq_true_2; set_solver|].
  destruct (String.eqb_spec filetype "objc") as [->|Hobjc];
    [apply bool_decide_eq_true_2; set_solver|].
  destruct (String.eqb_spec filetype "objcpp") as [->|Hobjcpp];
    [apply bool_decide_eq_true_2; set_solver|].
  apply bool_decide_eq_false_2. set_unfold. intuition congruence.
Qed.

Lemma qualifies_enters_batch (vim : Env) (buffer : Buffer) :
  qualifies vim buffer = enters_batch vim buffer.
Proof.
  unfold qualifies, enters_batch, joined_lines, newline, Py.truthy_opt_str,
    Py.truthy_str.
  rewrite ClangAvailableForBuffer_supported, join_concat. reflexivity.
Qed.

Lemma snapshot_of_buffer_snapshot (buffer : Buffer) :
  snapshot_of buffer = buffer_snapshot buffer.
Proof.
  unfold snapshot_of, buffer_snapshot, joined_lines, newline, Py.len.
  rewrite join_concat. destruct (name buffer); reflexivity.
Qed.

(** C9: the batch built by [GetUnsavedFilesVector] is, in the order of the
    open buffers, one snapshot for each buffer whose filetype is [c], [cpp],
    [objc] or [objcpp], whose newline-joined lines are not empty and whose
    name is not empty, and nothing else; each snapshot carries exactly the
    newline-joined lines of its buffer, their length and the name of the
    buffer, and the size of the batch is the number of qualifying buffers.
    The call never raises and posts nothing: the other buffers are passed
    over in silence. *)
Theorem GetUnsavedFilesVector_batch (vim : Env) (st : State) :
  let chosen := List.filter (enters_batch vim) (GetUnsavedBuffers vim) in
  exists st1,
    GetUnsavedFilesVector vim st
    = Returned (List.map buffer_snapshot chosen) st1
    /\ List.length (List.map buffer_snapshot chosen)
       = count_occ bool_dec
           (List.map (enters_batch vim) (GetUnsavedBuffers vim)) true
    /\ List.map UnsavedFile.contents_ (List.map buffer_snapshot chosen)
       = List.map
           (fun b => String.concat (String "010"%char EmptyString) (lines b))
           chosen
    /\ contents_holder st1
       = List.map UnsavedFile.contents_ (List.map buffer_snapshot chosen)
    /\ filename_holder st1
       = List.map UnsavedFile.filename_ (List.map buffer_snapshot chosen)
    /\ trace st1 = trace st.
Proof.
  intros chosen. eexists. split.
  - rewrite GetUnsavedFilesVector_run.
    rewrite (List.filter_ext (qualifies vim) (enters_batch vim)
               (qualifies_enters_batch vim)).
    fold chosen.
    rewrite (List.map_ext snapshot_of buffer_snapshot
               snapshot_of_buffer_snapshot).
    reflexivity.
  - simpl. rewrite !List.map_map.
    split; [|split; [reflexivity|split; [|split; [|reflexivity]]]].
    + rewrite List.length_map. subst chosen.
      induction (GetUnsavedBuffers vim) as [|b bs IH]; simpl; [reflexivity|].
      destruct (enters_batch vim b); simpl.
      * destruct (bool_dec true true); [|congruence]. now f_equal.
      * destruct (bool_dec false true); [discriminate|]. exact IH.
    + apply List.map_ext. intros b.
      exact (f_equal UnsavedFile.contents_ (snapshot_of_buffer_snapshot b)).
    + apply List.map_ext. intros b.
      exact (f_equal UnsavedFile.filename_ (snapshot_of_buffer_snapshot b)).
Qed.

(** ** The completion path *)

(** C5: when the engine is updating the translation unit of the current
    file, or the flags store has no flags for it, [CandidatesForQueryAsync]
    returns [None] without raising, calls the engine for nothing, posts
    exactly one notice (the still-parsing one when the engine is updating,
    the no-flags one otherwise), and leaves [completions_future] at
    [None]. *)
Theorem CandidatesForQueryAsync_refuses (vim : Env) (query : string)
    (st : State) :
  UpdatingTranslationUnit vim (current_buffer_name vim) = true
  \/ FlagsForFile vim (current_buffer_name vim) = [] ->
  exists st1,
    CandidatesForQueryAsync vim query st = Returned tt st1
    /\ trace st1 =
       (trace st ++
        [PostedVimMessage
           (if UpdatingTranslationUnit vim (current_buffer_name vim)
            then "Still parsing file, no completions yet."
            else "Still no compile flags, no completions yet.")])%list
    /\ completions_future st1 = Some None
    /\ parse_future st1 = parse_future st
    /\ contents_holder st1 = contents_holder st
    /\ filename_holder st1 = filename_holder st.
Proof.
  intros Hguard. unfold CandidatesForQueryAsync.
  destruct (UpdatingTranslationUnit vim (current_buffer_name vim)) eqn:Hup.
  - eexists. split; [reflexivity|]. simpl. repeat split.
  - destruct Hguard as [Hguard|Hguard]; [discriminate|].
    rewrite Hguard. simpl.
    eexists. split; [reflexivity|]. simpl. repeat split.
Qed.

Lemma CandidatesForQueryAsync_refuses_witness :
  exists st1,
    CandidatesForQueryAsync four_lines_while_parsing "" parse_pending
    = Returned tt st1
    /\ trace st1 =
       [CalledUpdateTranslationUnitAsync "a.cpp" [] ["-x"; "c++"];
        PostedVimMessage "Still parsing file, no completions yet."]
    /\ completions_future st1 = Some None
    /\ parse_future st1 = parse_future parse_pending
    /\ contents_holder st1 = contents_holder parse_pending
    /\ filename_holder st1 = filename_holder parse_pending.
Proof.
  apply (CandidatesForQueryAsync_refuses four_lines_while_parsing ""
           parse_pending).
  left. reflexivity.
Defined.

(** What [CandidatesFromStoredRequest] does once [completions_future] has
    been assigned [None]: the empty list, and nothing else happens. *)
Lemma CandidatesFromStoredRequest_no_request (vim : Env) (st : State) :
  completions_future st = Some None ->
  CandidatesFromStoredRequest vim st = Returned [] st.
Proof.
  intros Hnone. unfold CandidatesFromStoredRequest, mbind, M_bind, getattr.
  rewrite Hnone. reflexivity.
Qed.

(** C7, on the code: on a completer fresh from [__init__], which assigns
    [parse_future] but not [completions_future],
    [CandidatesFromStoredRequest] raises [AttributeError] where the empty
    list is specified. *)
Theorem CandidatesFromStoredRequest_fresh (vim : Env) :
  CandidatesFromStoredRequest vim ClangCompleter_init
  = Raised (Py.AttributeError "completions_future") ClangCompleter_init.
Proof. reflexivity. Qed.

(** ** The parse path *)

(** C4: the guards are tried in the order the specification lists them.
    With fewer than 5 lines the handle is cleared and nothing else changes;
    otherwise, with a parse of the file in flight, the call changes nothing;
    otherwise, without flags, the handle is cleared and nothing else changes;
    otherwise the engine is called once, with a fresh batch and the flags,
    and its handle is stored.  So the engine is called if and only if the
    buffer has at least 5 lines, no parse of the file is in flight and there
    are flags.  The call never raises. *)
Theorem OnFileReadyToParse_guards (vim : Env) (st : State) :
  let filename := current_buffer_name vim in
  let flags := FlagsForFile vim filename in
  let batch :=
    List.map buffer_snapshot
      (List.filter (enters_batch vim) (GetUnsavedBuffers vim)) in
  exists st1,
    OnFileReadyToParse vim st = Returned tt st1
    /\ trace st1 =
       (trace st ++
        if (5 <=? NumLinesInBuffer vim)
           && negb (UpdatingTranslationUnit vim filename)
           && has_flags flags
        then [CalledUpdateTranslationUnitAsync filename batch flags]
        else [])%list
    /\ (if NumLinesInBuffer vim <? 5 then st1 = with_parse_future None st
        else if UpdatingTranslationUnit vim filename then st1 = st
        else if negb (has_flags flags) then st1 = with_parse_future None st
        else parse_future st1
             = Some {| call_index := List.length (trace st) |}).
Proof.
  intros filename flags batch. unfold OnFileReadyToParse.
  fold filename. fold flags. fold (has_flags flags).
  destruct (Z.ltb_spec (NumLinesInBuffer vim) 5) as [Hfew|Hmany].
  { destruct (Z.leb_spec 5 (NumLinesInBuffer vim)); [lia|]. simpl.
    eexists. split; [reflexivity|]. simpl.
    rewrite app_nil_r. split; reflexivity. }
  destruct (Z.leb_spec 5 (NumLinesInBuffer vim)); [|lia]. simpl.
  destruct (UpdatingTranslationUnit vim filename); simpl.
  { eexists. split; [reflexivity|]. rewrite app_nil_r. split; reflexivity. }
  destruct (has_flags flags); simpl.
  - unfold mbind, M_bind.
    rewrite GetUnsavedFilesVector_run.
    rewrite (List.filter_ext (qualifies vim) (enters_batch vim)
               (qualifies_enters_batch vim)).
    rewrite (List.map_ext snapshot_of buffer_snapshot
               snapshot_of_buffer_snapshot).
    fold batch. simpl.
    eexists. split; [reflexivity|]. simpl. split; reflexivity.
  - eexists. split; [reflexivity|]. simpl.
    rewrite app_nil_r. split; reflexivity.
Qed.

(** ** The diagnostic index *)

Lemma index_lookup_store_append (store : DiagStore) (d : Diagnostic.t)
    (filename : string) (line : Z) :
  index_lookup (store_append store d) filename line
  = (index_lookup store filename line
     ++ if located filename line d then [d] else [])%list.
Proof.
  unfold index_lookup, store_append, defaultdict_getitem, located.
  destruct (store !! Diagnostic.filename_ d) as [by_line|] eqn:Hfile.
  - destruct (by_line !! Diagnostic.line_number_ d) as [ds|] eqn:Hline.
    + destruct (decide (Diagnostic.filename_ d = filename)) as [<-|Hf].
      * rewrite lookup_insert_eq, Hfile. simpl.
        rewrite bool_decide_eq_true_2 by reflexivity. simpl.
        destruct (decide (Diagnostic.line_number_ d = line)) as [<-|Hl].
        -- rewrite lookup_insert_eq, Hline. simpl.
           rewrite bool_decide_eq_true_2 by reflexivity. reflexivity.
        -- rewrite lookup_insert_ne by exact Hl.
           rewrite bool_decide_eq_false_2 by exact Hl.
           now rewrite app_nil_r.
      * rewrite lookup_insert_ne by exact Hf.
        rewrite bool_decide_eq_false_2 by exact Hf. simpl.
        now rewrite app_nil_r.
    + destruct (decide (Diagnostic.filename_ d = filename)) as [<-|Hf].
      * rewrite lookup_insert_eq, Hfile. simpl.
        rewrite bool_decide_eq_true_2 by reflexivity. simpl.
        destruct (decide (Diagnostic.line_number_ d = line)) as [<-|Hl].
        -- rewrite lookup_insert_eq, Hline. simpl.
           rewrite bool_decide_eq_true_2 by reflexivity. reflexivity.
        -- rewrite !lookup_insert_ne by exact Hl.
           rewrite bool_decide_eq_false_2 by exact Hl.
           now rewrite app_nil_r.
      * rewrite lookup_insert_ne by exact Hf.
        rewrite bool_decide_eq_false_2 by exact Hf. simpl.
        now rewrite app_nil_r.
  - destruct (decide (Diagnostic.filename_ d = filename)) as [<-|Hf].
    + rewrite lookup_empty, lookup_insert_eq, Hfile. simpl.
      rewrite bool_decide_eq_true_2 by reflexivity. simpl.
      destruct (decide (Diagnostic.line_number_ d = line)) as [<-|Hl].
      * rewrite lookup_insert_eq. simpl.
        rewrite bool_decide_eq_true_2 by reflexivity. reflexivity.
      * rewrite !lookup_insert_ne by exact Hl.
        rewrite lookup_empty.
        rewrite bool_decide_eq_false_2 by exact Hl. reflexivity.
    + rewrite lookup_empty, !lookup_insert_ne by exact Hf.
      rewrite bool_decide_eq_false_2 by exact Hf. simpl.
      now rewrite app_nil_r.
Qed.

Lemma index_lookup_fold_store_append (diagnostics : list Diagnostic.t) :
  forall (store : DiagStore) (filename : string) (line : Z),
    index_lookup (fold_left store_append diagnostics store) filename line
    = (index_lookup store filename line
       ++ List.filter (located filename line) diagnostics)%list.
Proof.
  induction diagnostics as [|d rest IH]; intros store filename line; simpl.
  - now rewrite app_nil_r.
  - rewrite IH, index_lookup_store_append, <- app_assoc.
    destruct (located filename line d); reflexivity.
Qed.

Lemma index_lookup_DiagnosticsToDiagStructure
    (diagnostics : list Diagnostic.t) (filename : string) (line : Z) :
  index_lookup (DiagnosticsToDiagStructure diagnostics) filename line
  = List.filter (located filename line) diagnostics.
Proof.
  unfold DiagnosticsToDiagStructure.
  rewrite index_lookup_fold_store_append. unfold index_lookup.
  rewrite lookup_empty. reflexivity.
Qed.

(** ** Fetching diagnostics *)

Lemma DiagnosticsForCurrentFileReady_run (vim : Env) (st : State) :
  DiagnosticsForCurrentFileReady vim st = Returned (parse_ready vim st) st.
Proof.
  unfold DiagnosticsForCurrentFileReady, parse_ready, mbind, M_bind, get_state.
  destruct (parse_future st); reflexivity.
Qed.

Lemma take_nonneg {A : Type} (n : Z) (xs : list A) :
  0 <= n -> Py.take n xs = firstn (Z.to_nat n) xs.
Proof.
  intros Hn. unfold Py.take. destruct (Z.ltb_spec n 0); [lia|reflexivity].
Qed.

Lemma GetDiagnosticsForCurrentFile_run (MAX : Z) (vim : Env) (st : State) :
  GetDiagnosticsForCurrentFile MAX vim st
  = if parse_ready vim st
    then
      match Py.comprehension (DiagnosticToDict vim)
              (Py.take MAX (DiagnosticsForFile vim (current_buffer_name vim)))
      with
      | inr prepared => Returned prepared (consumed prepared vim st)
      | inl e =>
          Raised e
            (with_diagnostic_store
               (DiagnosticsToDiagStructure
                  (DiagnosticsForFile vim (current_buffer_name vim))) st)
      end
    else Returned (last_prepared_diagnostics st) st.
Proof.
  unfold GetDiagnosticsForCurrentFile, mbind, M_bind.
  rewrite DiagnosticsForCurrentFileReady_run.
  destruct (parse_ready vim st); [|reflexivity].
  simpl. unfold lift.
  destruct (Py.comprehension _ _); reflexivity.
Qed.

Lemma comprehension_answers (vim : Env) (diagnostics : list Diagnostic.t) :
  Forall (editor_answers vim) diagnostics ->
  exists prepared,
    Py.comprehension (DiagnosticToDict vim) diagnostics = inr prepared
    /\ List.Forall2 (shown_as vim) diagnostics prepared.
Proof.
  induction diagnostics as [|d rest IH]; intros Hanswers; simpl.
  - exists []. split; [reflexivity|constructor].
  - apply List.Forall_cons_iff in Hanswers as [[number Hd] Hrest].
    destruct (IH Hrest) as (prepared & -> & Hshown).
    unfold DiagnosticToDict, bufnr_expression. rewrite Hd.
    eexists. split; [reflexivity|].
    constructor; [|exact Hshown].
    unfold shown_as. simpl. repeat split. exact Hd.
Qed.

Lemma comprehension_raises (vim : Env) (diagnostics : list Diagnostic.t) :
  Exists (fun d => ~ editor_answers vim d) diagnostics ->
  exists e, Py.comprehension (DiagnosticToDict vim) diagnostics = inl e.
Proof.
  induction diagnostics as [|d rest IH]; intros Hraises; simpl.
  - inversion Hraises.
  - unfold DiagnosticToDict at 1. unfold bufnr_expression.
    destruct (vim_eval_int vim _) as [e|number] eqn:Hd; [eauto|].
    apply List.Exists_cons in Hraises as [Hhere|Hlater].
    + exfalso. apply Hhere. exists number. exact Hd.
    + destruct (IH Hlater) as [e ->]. eauto.
Qed.

(** What [GetDiagnosticsForCurrentFile] does on a ready parse when the
    editor answers for every diagnostic it keeps, with a maximum that is a
    count: it returns one dictionary per diagnostic among the first [MAX],
    in order, each with the line, column, text and kind of its diagnostic,
    the buffer number the editor gave and validity 1; it caches that list,
    replaces the index by the one of all the diagnostics, clears the parse
    handle and touches nothing else of the completer. *)
Lemma GetDiagnosticsForCurrentFile_served (MAX : Z) (vim : Env) (st : State) :
  let diagnostics := DiagnosticsForFile vim (current_buffer_name vim) in
  0 <= MAX ->
  parse_ready vim st = true ->
  Forall (editor_answers vim) (firstn (Z.to_nat MAX) diagnostics) ->
  exists prepared st1 store,
    GetDiagnosticsForCurrentFile MAX vim st = Returned prepared st1
    /\ List.Forall2 (shown_as vim) (firstn (Z.to_nat MAX) diagnostics) prepared
    /\ Z.of_nat (List.length prepared) <= MAX
    /\ last_prepared_diagnostics st1 = prepared
    /\ diagnostic_store st1 = Some store
    /\ (forall filename line,
          index_lookup store filename line
          = List.filter (located filename line) diagnostics)
    /\ parse_future st1 = None
    /\ completions_future st1 = completions_future st
    /\ contents_holder st1 = contents_holder st
    /\ filename_holder st1 = filename_holder st
    /\ trace st1 = trace st.
Proof.
  intros diagnostics HMAX Hready Hanswers.
  rewrite GetDiagnosticsForCurrentFile_run, Hready.
  fold diagnostics. rewrite take_nonneg by exact HMAX.
  destruct (comprehension_answers vim _ Hanswers) as (prepared & -> & Hshown).
  exists prepared. eexists. eexists. split; [reflexivity|].
  split; [exact Hshown|]. split.
  { rewrite <- (List.Forall2_length Hshown), List.length_firstn. lia. }
  simpl. split; [reflexivity|]. split; [reflexivity|]. split.
  { intros filename line. apply index_lookup_DiagnosticsToDiagStructure. }
  repeat split.
Qed.

(** With no parse pending, or one that is not ready,
    [GetDiagnosticsForCurrentFile] returns the cached list and changes
    nothing. *)
Lemma GetDiagnosticsForCurrentFile_not_ready (MAX : Z) (vim : Env)
    (st : State) :
  parse_ready vim st = false ->
  GetDiagnosticsForCurrentFile MAX vim st
  = Returned (last_prepared_diagnostics st) st.
Proof.
  intros Hready. rewrite GetDiagnosticsForCurrentFile_run, Hready.
  reflexivity.
Qed.

(** C8, on the code: the file name of a diagnostic is pasted unquoted into
    the Vim expression that asks for its buffer number.  With a ready parse
    whose one diagnostic is in [o'neil.cpp], [vim.eval] raises while the
    dictionaries are made: [GetDiagnosticsForCurrentFile] returns no list,
    the index is already replaced, the cached list is not, and the parse
    handle is not cleared, so the parse is still reported ready. *)
Theorem GetDiagnosticsForCurrentFile_apostrophe :
  parse_ready parse_finished_apostrophe reparse_pending = true
  /\ exists st1 store,
       GetDiagnosticsForCurrentFile 30 parse_finished_apostrophe
         reparse_pending
       = Raised Py.VimError st1
       /\ diagnostic_store st1 = Some store
       /\ index_lookup store "o'neil.cpp" 3 = [diag "o'neil.cpp" 3 2 "first"]
       /\ last_prepared_diagnostics st1
          = last_prepared_diagnostics reparse_pending
       /\ parse_future st1 = parse_future reparse_pending
       /\ parse_ready parse_finished_apostrophe st1 = true.
Proof.
  split; [reflexivity|].
  rewrite GetDiagnosticsForCurrentFile_run.
  eexists. eexists. split; [reflexivity|]. simpl.
  split; [reflexivity|].
  rewrite index_lookup_DiagnosticsToDiagStructure.
  repeat split.
Qed.

(** C6, as the specification states it, fails on the code: a parse of
    [a.cpp] is requested and, once it has finished, fetched while [b.cpp]
    is the current buffer.  The fetch consumes the handle of that parse and
    indexes what the engine has for [b.cpp]: line 3 of [a.cpp] is empty in
    the index, although the parse of [a.cpp] has two diagnostics there. *)
Lemma DiagnosticIndex_fetched_from_other_buffer :
  exists st1 st2 store,
    OnFileReadyToParse editing_a_cpp ClangCompleter_init = Returned tt st1
    /\ trace st1
       = [CalledUpdateTranslationUnitAsync "a.cpp" [snapshot_of a_cpp]
            ["-x"; "c++"]]
    /\ parse_future st1 = Some {| call_index := 0 |}
    /\ GetDiagnosticsForCurrentFile 30 fetched_from_b_cpp st1 = Returned [] st2
    /\ parse_future st2 = None
    /\ diagnostic_store st2 = Some store
    /\ List.filter (located "a.cpp" 3)
         (DiagnosticsForFile fetched_from_b_cpp "a.cpp")
       = [diag "a.cpp" 3 2 "first"; diag "a.cpp" 3 10 "second"]
    /\ index_lookup store "a.cpp" 3 = []
    /\ index_lookup store "a.cpp" 3
       <> List.filter (located "a.cpp" 3)
            (DiagnosticsForFile fetched_from_b_cpp "a.cpp").
Proof.
  eexists. eexists. eexists.
  split; [vm_compute; reflexivity|].
  split; [vm_compute; reflexivity|].
  split; [reflexivity|].
  split; [rewrite GetDiagnosticsForCurrentFile_run; reflexivity|].
  split; [reflexivity|].
  split; [reflexivity|].
  split; [reflexivity|].
  rewrite index_lookup_DiagnosticsToDiagStructure.
  split; [reflexivity|discriminate].
Qed.

(** C6, amended: after a fetch that finds the pending parse ready the
    index, whatever it held before, maps every file and line to exactly
    those diagnostics, among the ones the engine has for the buffer that is
    current at the fetch, that are on that file and line, in the order the
    engine gave them.  Indexing two diagnostics on line 3 and one on line 7
    of [a.cpp] gives both line-3 entries in order for line 3 and nothing for
    line 99; and a second fetch, with [a.cpp] current and no diagnostic on
    line 7, leaves nothing on line 7. *)
Theorem DiagnosticIndex_rebuilt :
  (forall (MAX : Z) (vim : Env) (st : State),
     parse_ready vim st = true ->
     exists store1,
       diagnostic_store (state_of (GetDiagnosticsForCurrentFile MAX vim st))
       = Some store1
       /\ forall filename line,
            index_lookup store1 filename line
            = List.filter (located filename line)
                (DiagnosticsForFile vim (current_buffer_name vim)))
  /\ index_lookup (DiagnosticsToDiagStructure first_parse) "a.cpp" 3
     = [diag "a.cpp" 3 2 "first"; diag "a.cpp" 3 10 "second"]
  /\ index_lookup (DiagnosticsToDiagStructure first_parse) "a.cpp" 99 = []
  /\ index_lookup (DiagnosticsToDiagStructure first_parse) "a.cpp" 7
     = [diag "a.cpp" 7 1 "third"]
  /\ (exists store1,
        diagnostic_store
          (state_of (GetDiagnosticsForCurrentFile 30
                       (parse_finished second_parse (2, 5)) reparse_pending))
        = Some store1
        /\ index_lookup store1 "a.cpp" 7 = []
        /\ index_lookup store1 "a.cpp" 3 = [diag "a.cpp" 3 2 "first"]).
Proof.
  split.
  { intros MAX vim st Hready. rewrite GetDiagnosticsForCurrentFile_run, Hready.
    destruct (Py.comprehension _ _); simpl;
      (eexists; split; [reflexivity|]);
      intros filename line; apply index_lookup_DiagnosticsToDiagStructure. }
  rewrite !index_lookup_DiagnosticsToDiagStructure.
  repeat split.
  rewrite GetDiagnosticsForCurrentFile_run. simpl.
  eexists. split; [reflexivity|].
  rewrite !index_lookup_DiagnosticsToDiagStructure. split; reflexivity.
Qed.

Lemma DiagnosticIndex_rebuilt_witness :
  exists store1,
    diagnostic_store
      (state_of (GetDiagnosticsForCurrentFile 30
                   (parse_finished second_parse (2, 5)) reparse_pending))
    = Some store1
    /\ forall filename line,
         index_lookup store1 filename line
         = List.filter (located filename line) second_parse.
Proof.
  apply (proj1 DiagnosticIndex_rebuilt 30
           (parse_finished second_parse (2, 5)) reparse_pending).
  reflexivity.
Defined.

(** ** The detailed diagnostic under the cursor *)

Lemma store_getitem_reads (store : DiagStore) (filename : string) (line : Z) :
  fst (store_getitem store filename line) = index_lookup store filename line.
Proof.
  unfold store_getitem, index_lookup, defaultdict_getitem.
  destruct (store !! filename) as [by_line|]; simpl.
  - destruct (by_line !! line); reflexivity.
  - rewrite lookup_empty. reflexivity.
Qed.

Lemma store_getitem_inserts (store : DiagStore) (filename : string) (line : Z) :
  snd (store_getitem store filename line)
  = <[filename := <[line := index_lookup store filename line]>
                    (default ∅ (store !! filename))]> store.
Proof.
  unfold store_getitem, index_lookup, defaultdict_getitem.
  destruct (store !! filename) as [by_line|] eqn:Hfile; simpl.
  - destruct (by_line !! line) as [ds|] eqn:Hline; simpl.
    + now rewrite (insert_id by_line line ds Hline).
    + reflexivity.
  - rewrite lookup_empty. simpl. now rewrite insert_insert_eq.
Qed.

Lemma ShowDetailedDiagnostic_run (vim : Env) (st : State) (store : DiagStore) :
  diagnostic_store st = Some store ->
  let current_line := fst (CurrentLineAndColumn vim) + 1 in
  let current_column := snd (CurrentLineAndColumn vim) + 1 in
  let current_file := current_buffer_name vim in
  let diagnostics := index_lookup store current_file current_line in
  let st1 :=
    with_diagnostic_store
      (snd (store_getitem store current_file current_line)) st in
  ShowDetailedDiagnostic vim st
  = match diagnostics with
    | [] => PostVimMessage "No diagnostic for current line!" st1
    | _ :: _ =>
        match fst (fold_left (closest_step current_column) diagnostics
                     (None, 999)) with
        | None => Raised (Py.AttributeError "long_formatted_text_") st1
        | Some d => EchoText (Diagnostic.long_formatted_text_ d) st1
        end
    end.
Proof.
  intros Hstore current_line current_column current_file diagnostics st1.
  unfold ShowDetailedDiagnostic, mbind, M_bind, getattr. rewrite Hstore.
  fold current_line. fold current_column. fold current_file.
  subst diagnostics st1.
  rewrite <- store_getitem_reads.
  destruct (store_getitem store current_file current_line) as [ds store1].
  simpl. destruct ds as [|d ds]; [reflexivity|].
  destruct (fold_left _ _ _) as [[closest|] bd]; reflexivity.
Qed.

Lemma closest_step_scanned (current_column : Z) (seen : list Diagnostic.t)
    (best : option Diagnostic.t * Z) (x : Diagnostic.t) :
  scanned current_column seen best ->
  scanned current_column (seen ++ [x]) (closest_step current_column best x).
Proof.
  destruct best as [[d|] bd]; unfold scanned, closest_step; simpl;
    fold (distance current_column x).
  - intros (-> & Hlt & before & after & -> & Hbefore & Hafter).
    destruct (Z.ltb_spec (distance current_column x)
                (distance current_column d)) as [Hcloser|Hnot]; simpl.
    + split; [reflexivity|]. split; [lia|].
      exists (before ++ d :: after)%list, []. split; [reflexivity|].
      split; [|constructor].
      apply List.Forall_app. split.
      * eapply List.Forall_impl; [|exact Hbefore]. simpl. intros; lia.
      * constructor; [lia|].
        eapply List.Forall_impl; [|exact Hafter]. simpl. intros; lia.
    + split; [reflexivity|]. split; [exact Hlt|].
      exists before, (after ++ [x])%list. split.
      * now rewrite <- app_assoc.
      * split; [exact Hbefore|].
        apply List.Forall_app. split; [exact Hafter|]. constructor; [lia|constructor].
  - intros (-> & Hfar).
    destruct (Z.ltb_spec (distance current_column x) 999) as [Hcloser|Hnot];
      simpl.
    + split; [reflexivity|]. split; [exact Hcloser|].
      exists seen, []. split; [reflexivity|]. split; [|constructor].
      eapply List.Forall_impl; [|exact Hfar]. simpl. intros; lia.
    + split; [reflexivity|].
      apply List.Forall_app. split; [exact Hfar|]. constructor; [lia|constructor].
Qed.

Lemma fold_closest_step_scanned (current_column : Z)
    (rest : list Diagnostic.t) :
  forall seen best,
    scanned current_column seen best ->
    scanned current_column (seen ++ rest)
      (fold_left (closest_step current_column) rest best).
Proof.
  induction rest as [|x rest IH]; intros seen best Hinv; simpl.
  - now rewrite app_nil_r.
  - replace (seen ++ x :: rest)%list with ((seen ++ [x]) ++ rest)%list
      by now rewrite <- app_assoc.
    apply IH, closest_step_scanned, Hinv.
Qed.

(** The scan on the diagnostics of a line, when one of them is less than
    999 columns from the cursor: the long text of the first diagnostic at
    the least distance is echoed, and nothing is raised. *)
Lemma ShowDetailedDiagnostic_nearest (vim : Env) (st : State)
    (store : DiagStore) :
  let current_line := fst (CurrentLineAndColumn vim) + 1 in
  let current_column := snd (CurrentLineAndColumn vim) + 1 in
  let diagnostics :=
    index_lookup store (current_buffer_name vim) current_line in
  diagnostic_store st = Some store ->
  Exists (fun e => distance current_column e < 999) diagnostics ->
  exists before d after st1,
    diagnostics = (before ++ d :: after)%list
    /\ Forall (fun e => distance current_column d < distance current_column e)
         before
    /\ Forall (fun e => distance current_column d <= distance current_column e)
         after
    /\ ShowDetailedDiagnostic vim st = Returned tt st1
    /\ trace st1
       = (trace st ++ [EchoedText (Diagnostic.long_formatted_text_ d)])%list.
Proof.
  intros current_line current_column diagnostics Hstore Hnear.
  rewrite (ShowDetailedDiagnostic_run vim st store Hstore).
  fold current_line. fold current_column. fold diagnostics.
  pose proof (fold_closest_step_scanned current_column diagnostics []
                (None, 999)) as Hscan.
  simpl in Hscan. specialize (Hscan (conj eq_refl (List.Forall_nil _))).
  destruct diagnostics as [|d0 ds] eqn:Hds.
  { inversion Hnear. }
  rewrite <- Hds in *. clear Hds.
  unfold scanned in Hscan.
  destruct (fst (fold_left (closest_step current_column) diagnostics
                   (None, 999))) as [d|].
  - destruct Hscan as (_ & _ & before & after & Hsplit & Hbefore & Hafter).
    exists before, d, after. eexists.
    split; [exact Hsplit|]. split; [exact Hbefore|]. split; [exact Hafter|].
    split; reflexivity.
  - destruct Hscan as [_ Hfar]. exfalso.
    apply List.Exists_exists in Hnear as (e & Hin & Hlt).
    rewrite List.Forall_forall in Hfar. specialize (Hfar e Hin). lia.
Qed.

(** The scan when every diagnostic of the line is 999 columns or more from
    the cursor: no diagnostic is ever taken as closest, and reading the long
    text of [None] raises. *)
Lemma ShowDetailedDiagnostic_all_far (vim : Env) (st : State)
    (store : DiagStore) :
  let current_line := fst (CurrentLineAndColumn vim) + 1 in
  let current_column := snd (CurrentLineAndColumn vim) + 1 in
  let diagnostics :=
    index_lookup store (current_buffer_name vim) current_line in
  diagnostic_store st = Some store ->
  diagnostics <> [] ->
  Forall (fun e => 999 <= distance current_column e) diagnostics ->
  exists st1,
    ShowDetailedDiagnostic vim st
    = Raised (Py.AttributeError "long_formatted_text_") st1
    /\ trace st1 = trace st.
Proof.
  intros current_line current_column diagnostics Hstore Hsome Hfar.
  rewrite (ShowDetailedDiagnostic_run vim st store Hstore).
  fold current_line. fold current_column. fold diagnostics.
  pose proof (fold_closest_step_scanned current_column diagnostics []
                (None, 999)) as Hscan.
  simpl in Hscan. specialize (Hscan (conj eq_refl (List.Forall_nil _))).
  destruct diagnostics as [|d0 ds] eqn:Hds; [congruence|].
  rewrite <- Hds in *. clear Hds.
  unfold scanned in Hscan.
  destruct (fst (fold_left (closest_step current_column) diagnostics
                   (None, 999))) as [d|].
  - exfalso.
    destruct Hscan as (_ & Hlt & before & after & Hsplit & _).
    rewrite List.Forall_forall in Hfar.
    specialize (Hfar d). rewrite Hsplit in Hfar.
    specialize (Hfar (in_elt d before after)). lia.
  - eexists. split; reflexivity.
Qed.

(** C3, on the code: with the cursor on line 3, column 1, and the only
    diagnostic of that line at column 1200, the line has a diagnostic but
    [ShowDetailedDiagnostic] echoes nothing and raises [AttributeError]: the
    distance 1199 is not below the initial 999. *)
Theorem ShowDetailedDiagnostic_far_column :
  index_lookup (DiagnosticsToDiagStructure [diag "a.cpp" 3 1200 "far"])
    "a.cpp" 3
  = [diag "a.cpp" 3 1200 "far"]
  /\ exists st1,
       ShowDetailedDiagnostic (parse_finished [] (2, 0)) far_diagnostic_indexed
       = Raised (Py.AttributeError "long_formatted_text_") st1
       /\ trace st1 = trace far_diagnostic_indexed.
Proof.
  assert (Hline :
    index_lookup (DiagnosticsToDiagStructure [diag "a.cpp" 3 1200 "far"])
      "a.cpp" 3 = [diag "a.cpp" 3 1200 "far"]).
  { rewrite index_lookup_DiagnosticsToDiagStructure. reflexivity. }
  split; [exact Hline|].
  apply (ShowDetailedDiagnostic_all_far (parse_finished [] (2, 0))
           far_diagnostic_indexed
           (DiagnosticsToDiagStructure [diag "a.cpp" 3 1200 "far"]));
    [reflexivity| |];
    change (index_lookup
              (DiagnosticsToDiagStructure [diag "a.cpp" 3 1200 "far"])
              "a.cpp" 3 <> [])
      || change (Forall (fun e => 999 <= distance 1 e)
                   (index_lookup
                      (DiagnosticsToDiagStructure [diag "a.cpp" 3 1200 "far"])
                      "a.cpp" 3));
    rewrite Hline.
  - discriminate.
  - constructor; [|constructor]. vm_compute. discriminate.
Qed.

(** The examples of the nearest-diagnostic search: with diagnostics at
    columns 2 and 10 on the line, the cursor at column 6 (0-based 5) shows
    the one at column 2, and the cursor at column 9 (0-based 8) shows the
    one at column 10. *)
Lemma ShowDetailedDiagnostic_examples :
  (exists st1,
     ShowDetailedDiagnostic (parse_finished first_parse (2, 5)) reparse_pending
     = Returned tt st1
     /\ trace st1 = (trace reparse_pending ++ [EchoedText "first"])%list)
  /\ (exists st1,
        ShowDetailedDiagnostic (parse_finished first_parse (2, 8))
          reparse_pending
        = Returned tt st1
        /\ trace st1 = (trace reparse_pending ++ [EchoedText "second"])%list).
Proof.
  assert (Hline :
    index_lookup (DiagnosticsToDiagStructure first_parse) "a.cpp" 3
    = [diag "a.cpp" 3 2 "first"; diag "a.cpp" 3 10 "second"]).
  { rewrite index_lookup_DiagnosticsToDiagStructure. reflexivity. }
  split.
  - rewrite (ShowDetailedDiagnostic_run (parse_finished first_parse (2, 5))
               reparse_pending (DiagnosticsToDiagStructure first_parse)
               eq_refl).
    change (index_lookup (DiagnosticsToDiagStructure first_parse)
              (current_buffer_name (parse_finished first_parse (2, 5)))
              (fst (CurrentLineAndColumn (parse_finished first_parse (2, 5)))
               + 1))
      with (index_lookup (DiagnosticsToDiagStructure first_parse) "a.cpp" 3).
    rewrite Hline. eexists. split; reflexivity.
  - rewrite (ShowDetailedDiagnostic_run (parse_finished first_parse (2, 8))
               reparse_pending (DiagnosticsToDiagStructure first_parse)
               eq_refl).
    change (index_lookup (DiagnosticsToDiagStructure first_parse)
              (current_buffer_name (parse_finished first_parse (2, 8)))
              (fst (CurrentLineAndColumn (parse_finished first_parse (2, 8)))
               + 1))
      with (index_lookup (DiagnosticsToDiagStructure first_parse) "a.cpp" 3).
    rewrite Hline. eexists. split; reflexivity.
Qed.

(** C10: [ShowDetailedDiagnostic] writes to the index.  When the index has
    no entry for the current file, or none for the current line of it, the
    lookup inserts an empty list under that file and line (creating the
    entry of the file when it is missing), so the index afterwards differs
    from the index before; the no-diagnostic notice is then posted. *)
Theorem ShowDetailedDiagnostic_inserts (vim : Env) (st : State)
    (store : DiagStore) :
  let current_line := fst (CurrentLineAndColumn vim) + 1 in
  let current_file := current_buffer_name vim in
  diagnostic_store st = Some store ->
  store !! current_file ≫= lookup current_line = None ->
  exists st1 store1,
    ShowDetailedDiagnostic vim st = Returned tt st1
    /\ diagnostic_store st1 = Some store1
    /\ store1
       = <[current_file :=
             <[current_line := []]> (default ∅ (store !! current_file))]> store
    /\ store1 !! current_file ≫= lookup current_line = Some []
    /\ store1 <> store
    /\ trace st1
       = (trace st ++ [PostedVimMessage "No diagnostic for current line!"])%list.
Proof.
  intros current_line current_file Hstore Hmissing.
  assert (Hempty : index_lookup store current_file current_line = []).
  { unfold index_lookup. rewrite Hmissing. reflexivity. }
  rewrite (ShowDetailedDiagnostic_run vim st store Hstore).
  fold current_line. fold current_file.
  rewrite Hempty, store_getitem_inserts, Hempty.
  assert (Hnow :
    <[current_file :=
        <[current_line := []]> (default ∅ (store !! current_file))]> store
    !! current_file ≫= lookup current_line
    = Some ([] : list Diagnostic.t)).
  { rewrite lookup_insert_eq. simpl. apply lookup_insert_eq. }
  eexists. eexists. split; [reflexivity|]. simpl.
  split; [reflexivity|]. split; [reflexivity|]. split; [exact Hnow|].
  split; [|reflexivity].
  intros Heq. rewrite Heq in Hnow. congruence.
Qed.

Lemma ShowDetailedDiagnostic_inserts_witness :
  exists st1 store1,
    ShowDetailedDiagnostic (parse_finished first_parse (98, 0)) reparse_pending
    = Returned tt st1
    /\ diagnostic_store st1 = Some store1
    /\ store1
       = <["a.cpp" :=
             <[99 := []]>
               (default ∅ (DiagnosticsToDiagStructure first_parse !! "a.cpp"))]>
           (DiagnosticsToDiagStructure first_parse)
    /\ store1 !! "a.cpp" ≫= lookup 99 = Some []
    /\ store1 <> DiagnosticsToDiagStructure first_parse
    /\ trace st1
       = (trace reparse_pending
          ++ [PostedVimMessage "No diagnostic for current line!"])%list.
Proof.
  apply (ShowDetailedDiagnostic_inserts (parse_finished first_parse (98, 0))
           reparse_pending (DiagnosticsToDiagStructure first_parse)).
  - reflexivity.
  - vm_compute. reflexivity.
Defined.

(** ** The holders of the snapshot strings *)

(** C2, on the code: a parse request on [a.cpp] hands the engine a batch
    with the snapshot of [a.cpp], whose strings the holders keep.  While the
    engine still reports that parse in flight, a parse request on [b.cpp]
    goes through (only a parse of the same file is refused) and its build
    starts by emptying both holders: the strings of the first batch are held
    no more, although the call that got them has not completed. *)
Theorem holders_emptied_by_next_batch :
  exists st1 st2,
    OnFileReadyToParse editing_a_cpp ClangCompleter_init = Returned tt st1
    /\ trace st1
       = [CalledUpdateTranslationUnitAsync "a.cpp" [snapshot_of a_cpp]
            ["-x"; "c++"]]
    /\ retains st1 (snapshot_of a_cpp) = true
    /\ UpdatingTranslationUnit moved_to_b_cpp "a.cpp" = true
    /\ OnFileReadyToParse moved_to_b_cpp st1 = Returned tt st2
    /\ trace st2
       = (trace st1
          ++ [CalledUpdateTranslationUnitAsync "b.cpp" [snapshot_of b_cpp]
                ["-x"; "c++"]])%list
    /\ contents_holder st2 = [UnsavedFile.contents_ (snapshot_of b_cpp)]
    /\ filename_holder st2 = ["b.cpp"]
    /\ retains st2 (snapshot_of a_cpp) = false.
Proof.
  eexists. eexists.
  split; [vm_compute; reflexivity|].
  split; [vm_compute; reflexivity|].
  split; [vm_compute; reflexivity|].
  split; [reflexivity|].
  split; [vm_compute; reflexivity|].
  repeat split; vm_compute; reflexivity.
Qed.

(** The same loss on the completion path: a completion request with an
    empty query, then, once the buffers are written, a second one, with
    nothing having waited for the first call. *)
Lemma holders_emptied_by_next_completion :
  exists st1 st2,
    CandidatesForQueryAsync editing_a_cpp "" ClangCompleter_init
    = Returned tt st1
    /\ trace st1
       = [CalledCandidatesForQueryAndLocationInFileAsync "" "a.cpp" 4 5
            [snapshot_of a_cpp] ["-x"; "c++"]]
    /\ retains st1 (snapshot_of a_cpp) = true
    /\ CandidatesForQueryAsync after_write "" st1 = Returned tt st2
    /\ contents_holder st2 = []
    /\ filename_holder st2 = []
    /\ retains st2 (snapshot_of a_cpp) = false.
Proof.
  eexists. eexists.
  split; [vm_compute; reflexivity|].
  split; [vm_compute; reflexivity|].
  split; [vm_compute; reflexivity|].
  split; [vm_compute; reflexivity|].
  repeat split; vm_compute; reflexivity.
Qed.

(** ** Text before the cursor *)

Lemma append_nil_l (s : string) : String.append "" s = s.
Proof. reflexivity. Qed.

Lemma append_cons (a : ascii) (p s : string) :
  String.append (String a p) s = String a (String.append p s).
Proof. reflexivity. Qed.

Lemma string_snoc (p : string) :
  p = "" \/ exists q c, p = String.append q (String c "").
Proof.
  induction p as [|a p IH]; [left; reflexivity|right].
  destruct IH as [->|(q & c & ->)].
  - exists "", a. reflexivity.
  - exists (String a q), c. reflexivity.
Qed.

Lemma length_append (p s : string) :
  String.length (String.append p s) = (String.length p + String.length s)%nat.
Proof.
  induction p as [|a p IH]; [reflexivity|].
  rewrite append_cons. simpl. now rewrite IH.
Qed.

Lemma append_assoc (p q r : string) :
  String.append (String.append p q) r = String.append p (String.append q r).
Proof.
  induction p as [|a p IH]; [reflexivity|].
  rewrite !append_cons. now rewrite IH.
Qed.

Lemma get_append_at (q : string) (c : ascii) (r : string) :
  String.get (String.length q) (String.append q (String c r)) = Some c.
Proof.
  induction q as [|a q IH]; [reflexivity|].
  rewrite append_cons. simpl. exact IH.
Qed.

Lemma substring_prefix (m r : string) :
  String.substring 0 (String.length m) (String.append m r) = m.
Proof.
  induction m as [|a m IH].
  - rewrite append_nil_l. destruct r; reflexivity.
  - rewrite append_cons. simpl. now rewrite IH.
Qed.

Lemma substring_append_at (q m r : string) :
  String.substring (String.length q) (String.length m)
    (String.append q (String.append m r)) = m.
Proof.
  induction q as [|a q IH].
  - rewrite append_nil_l. apply substring_prefix.
  - rewrite append_cons. simpl. exact IH.
Qed.

Lemma append_snoc_inj (q q' : string) (c c' : ascii) :
  String.append q (String c "") = String.append q' (String c' "") ->
  q = q' /\ c = c'.
Proof.
  revert q'. induction q as [|a q IH]; intros [|a' q'] Heq;
    rewrite ?append_cons, ?append_nil_l in Heq.
  - injection Heq as ->. split; reflexivity.
  - injection Heq as -> Heq. destruct q'; discriminate.
  - injection Heq as -> Heq. destruct q; discriminate.
  - injection Heq as -> Heq. destruct (IH q' Heq) as [-> ->].
    split; reflexivity.
Qed.

Lemma append_two_inj (q q' : string) (a c x y : ascii) :
  String.append (String.append q (String a "")) (String c "")
  = String.append q' (String x (String y ""))
  <-> q = q' /\ a = x /\ c = y.
Proof.
  split.
  - intros H.
    change (String x (String y ""))
      with (String.append (String x "") (String y "")) in H.
    rewrite <- append_assoc in H.
    apply append_snoc_inj in H as [H ->].
    apply append_snoc_inj in H as [-> ->]. auto.
  - intros (-> & -> & ->). rewrite append_assoc. reflexivity.
Qed.

Theorem ShouldUseClang_text_before_cursor (p s : string) :
  ShouldUseClang (String.append p s) (Py.len p) = inr true
  <-> ends_with_trigger p.
Proof.
  rewrite ShouldUseClang_refines.
  unfold trigger_rule, ends_with_trigger, Py.len.
  rewrite length_append.
  destruct (string_snoc p) as [->|(q & c & ->)].
  { simpl. split; [discriminate|].
    intros (q & [H|[H|H]]); destruct q; discriminate. }
  rewrite length_append. simpl String.length.
  replace (Z.to_nat (Z.of_nat (String.length q + 1) - 1)) with (String.length q)
    by lia.
  rewrite (append_assoc q (String c "") s), append_cons, append_nil_l.
  rewrite get_append_at.
  destruct (Z.leb_spec 1 (Z.of_nat (String.length q + 1))) as [_|?]; [|lia].
  destruct (Z.leb_spec (Z.of_nat (String.length q + 1))
              (Z.of_nat (String.length q + 1 + String.length s))) as [_|?]; [|lia].
  simpl andb.
  destruct (Ascii.eqb_spec c ".") as [->|Hdot]; simpl orb.
  { split; [|reflexivity]. intros _. exists q. left. reflexivity. }
  destruct (string_snoc q) as [->|(q2 & a & ->)].
  { simpl. split; [discriminate|].
    intros (q & [H|[H|H]]).
    - rewrite append_nil_l in H.
      change (String c "") with (String.append "" (String c "")) in H.
      apply append_snoc_inj in H as [_ ->]. congruence.
    - destruct q as [|? [|? ?]]; discriminate.
    - destruct q as [|? [|? ?]]; discriminate. }
  rewrite length_append. simpl String.length.
  destruct (Z.leb_spec 2 (Z.of_nat (String.length q2 + 1 + 1))) as [_|?];
    [|lia].
  replace (Z.to_nat (Z.of_nat (String.length q2 + 1 + 1) - 2))
    with (String.length q2) by lia.
  rewrite (append_assoc q2 (String a "") (String c s)), append_cons,
    append_nil_l.
  change 2%nat with (String.length (String a (String c ""))).
  change (String a (String c s))
    with (String.append (String a (String c "")) s).
  rewrite substring_append_at.
  remember (String a (String c "")) as two eqn:Htwo.
  destruct (String.eqb_spec two "->") as [Harrow|Harrow];
    [|destruct (String.eqb_spec two "::") as [Hscope|Hscope]]; simpl;
    subst two.
  - injection Harrow as -> ->.
    split; [|reflexivity]. intros _.
    exists q2. right. left. now apply append_two_inj.
  - injection Hscope as -> ->.
    split; [|reflexivity]. intros _.
    exists q2. right. right. now apply append_two_inj.
  - split; [discriminate|].
    intros (q' & [H|[H|H]]).
    + apply append_snoc_inj in H as [_ ->]. congruence.
    + apply append_two_inj in H as (_ & -> & ->). congruence.
    + apply append_two_inj in H as (_ & -> & ->). congruence.
Qed.

(** ** More on the snapshot builder *)

Lemma truthy_str_true (s : string) : Py.truthy_str s = true <-> s <> "".
Proof.
  unfold Py.truthy_str. destruct (String.eqb_spec s ""); simpl; split;
    congruence.
Qed.

Lemma join_newline_empty (parts : list string) :
  Py.join newline parts = "" <-> parts = [] \/ parts = [""].
Proof.
  destruct parts as [|p [|q rest]]; simpl.
  - split; auto.
  - split; [intros ->; auto|intros [H|H]; congruence].
  - split.
    + intros H. apply (f_equal String.length) in H.
      rewrite !length_append in H. simpl in H. lia.
    + intros [H|H]; discriminate.
Qed.

Lemma snapshot_of_ok (vim : Env) (buffer : Buffer) :
  qualifies vim buffer = true -> snapshot_ok (snapshot_of buffer).
Proof.
  unfold qualifies, snapshot_ok, snapshot_of. intros Hq. simpl.
  apply andb_true_iff in Hq as [Hq Hname].
  apply andb_true_iff in Hq as [_ Hcontents].
  apply truthy_str_true in Hcontents.
  destruct (name buffer) as [n|]; simpl in *; [|discriminate].
  apply truthy_str_true in Hname.
  repeat split; try assumption.
  unfold Py.len.
  destruct (Py.join newline (lines buffer)); [congruence|simpl; lia].
Qed.

(** A buffer of a clang filetype that has a name is left out of the batch
    exactly when it has no line at all or a single empty line: its joined
    contents are then empty.  Two empty lines already make contents (one
    newline) and the buffer is taken. *)
Theorem GetUnsavedFilesVector_body_empty_contents (vim : Env)
    (files : list UnsavedFile.t) (buffer : Buffer) (st : State) :
  ClangAvailableForBuffer vim buffer = true ->
  Py.truthy_opt_str (name buffer) = true ->
  GetUnsavedFilesVector_body vim files buffer st = Returned files st
  <-> (lines buffer = [] \/ lines buffer = [""]).
Proof.
  intros Hft Hname. rewrite <- join_newline_empty.
  destruct (qualifies vim buffer) eqn:Hq.
  - rewrite GetUnsavedFilesVector_body_takes by exact Hq.
    pose proof (snapshot_of_ok vim buffer Hq) as (Hcontents & _).
    split.
    + intros Heq. injection Heq as Heq _.
      apply (f_equal (@List.length _)) in Heq.
      rewrite List.length_app in Heq. simpl in Heq. lia.
    + intros Hempty. exfalso. apply Hcontents. exact Hempty.
  - rewrite GetUnsavedFilesVector_body_skips by exact Hq.
    split; [intros _|reflexivity].
    unfold qualifies in Hq. rewrite Hft, Hname in Hq. simpl in Hq.
    rewrite andb_true_r in Hq.
    destruct (String.eqb_spec (Py.join newline (lines buffer)) "") as [H|H];
      [exact H|].
    apply truthy_str_true in H. congruence.
Qed.

Lemma GetUnsavedFilesVector_body_empty_contents_witness :
  GetUnsavedFilesVector_body editing_a_cpp []
    {| number := 1; name := Some "a.cpp"; lines := [""] |} ClangCompleter_init
  = Returned [] ClangCompleter_init
  <-> (([""] : list string) = [] \/ ([""] : list string) = [""]).
Proof.
  apply (GetUnsavedFilesVector_body_empty_contents editing_a_cpp []
           {| number := 1; name := Some "a.cpp"; lines := [""] |}
           ClangCompleter_init).
  - vm_compute. reflexivity.
  - reflexivity.
Defined.

(** Every snapshot of a batch can be used by the engine: its contents and
    its name are not empty and its length is the length of its contents;
    and the two holders have one string each per snapshot. *)
Theorem GetUnsavedFilesVector_well_formed (vim : Env) (st : State) :
  exists files st1,
    GetUnsavedFilesVector vim st = Returned files st1
    /\ Forall snapshot_ok files
    /\ List.length (contents_holder st1) = List.length files
    /\ List.length (filename_holder st1) = List.length files.
Proof.
  rewrite GetUnsavedFilesVector_run.
  eexists. eexists. split; [reflexivity|]. simpl.
  rewrite !List.length_map. split; [|split; reflexivity].
  apply List.Forall_forall. intros file Hin.
  apply List.in_map_iff in Hin as (buffer & <- & Hin).
  apply List.filter_In in Hin as [_ Hq].
  exact (snapshot_of_ok vim buffer Hq).
Qed.

(** A build leaves nothing of the build before it: whatever the editor
    showed at the previous build, building again gives the batch and the
    state that a single build gives. *)
Theorem GetUnsavedFilesVector_rebuild (vim0 vim : Env) (st : State) :
  GetUnsavedFilesVector vim (state_of (GetUnsavedFilesVector vim0 st))
  = GetUnsavedFilesVector vim st.
Proof.
  rewrite !GetUnsavedFilesVector_run. reflexivity.
Qed.

(** ** More on the completion path *)

Lemma has_flags_true (flags : list string) :
  has_flags flags = true <-> flags <> [].
Proof.
  unfold has_flags. destruct flags as [|f fs].
  - split; [discriminate|congruence].
  - split; [discriminate|]. intros _. apply Z.ltb_lt. simpl List.length. lia.
Qed.

(** [CandidatesForQueryAsync] always returns, with [completions_future]
    assigned. *)
Lemma CandidatesForQueryAsync_assigns (vim : Env) (query : string)
    (st : State) :
  exists st1 handle,
    CandidatesForQueryAsync vim query st = Returned tt st1
    /\ completions_future st1 = Some handle.
Proof.
  unfold CandidatesForQueryAsync.
  destruct (UpdatingTranslationUnit vim (current_buffer_name vim)).
  { eexists. eexists. split; reflexivity. }
  fold (has_flags (FlagsForFile vim (current_buffer_name vim))).
  destruct (has_flags (FlagsForFile vim (current_buffer_name vim))); simpl.
  - unfold mbind, M_bind.
    destruct (Py.truthy_str query); simpl.
    + eexists. eexists. split; reflexivity.
    + rewrite GetUnsavedFilesVector_run. simpl.
      eexists. eexists. split; reflexivity.
  - eexists. eexists. split; reflexivity.
Qed.

(** When no parse of the current file is in flight and there are flags,
    [CandidatesForQueryAsync] posts nothing and calls the engine once, with
    the query, the file, the line of the cursor, the start column plus one
    and the flags; the batch is empty for a non-empty query, which leaves
    the holders alone, and freshly built for the empty query.  The handle of
    the call replaces whatever [completions_future] was. *)
Theorem CandidatesForQueryAsync_dispatches (vim : Env) (query : string)
    (st : State) :
  UpdatingTranslationUnit vim (current_buffer_name vim) = false ->
  FlagsForFile vim (current_buffer_name vim) <> [] ->
  let batch :=
    List.map snapshot_of (List.filter (qualifies vim) (GetUnsavedBuffers vim)) in
  let files := if Py.truthy_str query then [] else batch in
  exists st1,
    CandidatesForQueryAsync vim query st = Returned tt st1
    /\ trace st1
       = (trace st
          ++ [CalledCandidatesForQueryAndLocationInFileAsync query
                (current_buffer_name vim) (fst (window_cursor vim))
                (completion_start_column vim + 1) files
                (FlagsForFile vim (current_buffer_name vim))])%list
    /\ completions_future st1
       = Some (Some {| call_index := List.length (trace st) |})
    /\ parse_future st1 = parse_future st
    /\ contents_holder st1
       = (if Py.truthy_str query then contents_holder st
          else List.map UnsavedFile.contents_ batch)
    /\ filename_holder st1
       = (if Py.truthy_str query then filename_holder st
          else List.map UnsavedFile.filename_ batch).
Proof.
  intros Hidle Hflags batch files. unfold CandidatesForQueryAsync.
  rewrite Hidle.
  fold (has_flags (FlagsForFile vim (current_buffer_name vim))).
  apply has_flags_true in Hflags. rewrite Hflags. simpl.
  unfold mbind, M_bind. subst files.
  destruct (Py.truthy_str query); simpl.
  - eexists. split; [reflexivity|]. simpl. repeat split.
  - rewrite GetUnsavedFilesVector_run. fold batch. simpl.
    eexists. split; [reflexivity|]. simpl.
    unfold batch. rewrite !List.map_map. repeat split.
Qed.

Lemma CandidatesForQueryAsync_dispatches_witness :
  exists st1,
    CandidatesForQueryAsync completing_name "s" parse_pending = Returned tt st1
    /\ trace st1
       = (trace parse_pending
          ++ [CalledCandidatesForQueryAndLocationInFileAsync "s" "a.cpp" 4 3
                [] ["-x"; "c++"]])%list
    /\ completions_future st1 = Some (Some {| call_index := 1 |})
    /\ parse_future st1 = parse_future parse_pending
    /\ contents_holder st1 = contents_holder parse_pending
    /\ filename_holder st1 = filename_holder parse_pending.
Proof.
  apply (CandidatesForQueryAsync_dispatches completing_name "s" parse_pending).
  - reflexivity.
  - discriminate.
Defined.

(** After any [CandidatesForQueryAsync], served or refused, with any query,
    [CandidatesFromStoredRequest] finds the attribute it tests: neither call
    raises. *)
Theorem CandidatesFromStoredRequest_after_request (vim vim' : Env)
    (query : string) (st : State) :
  exists st1 results st2,
    CandidatesForQueryAsync vim query st = Returned tt st1
    /\ CandidatesFromStoredRequest vim' st1 = Returned results st2.
Proof.
  destruct (CandidatesForQueryAsync_assigns vim query st)
    as (st1 & handle & Hrun & Hset).
  exists st1. unfold CandidatesFromStoredRequest, mbind, M_bind, getattr.
  rewrite Hset. destruct handle as [future|].
  - destruct (List.map CompletionDataToDict (GetResults vim' future));
      eexists; eexists; (split; [exact Hrun|reflexivity]).
  - eexists. eexists. split; [exact Hrun|reflexivity].
Qed.

(** With a completion handle stored, [CandidatesFromStoredRequest] returns
    one dictionary per result of the engine, in order; it posts the
    no-completions notice exactly when there is no result; and it keeps the
    handle and every other attribute, so the results can be fetched again. *)
Theorem CandidatesFromStoredRequest_pending (vim : Env) (st : State)
    (future : Future) :
  completions_future st = Some (Some future) ->
  exists st1,
    CandidatesFromStoredRequest vim st
    = Returned (List.map CompletionDataToDict (GetResults vim future)) st1
    /\ trace st1
       = (trace st
          ++ match GetResults vim future with
             | [] => [PostedVimMessage
                        "No completions found; errors in the file?"]
             | _ :: _ => []
             end)%list
    /\ completions_future st1 = completions_future st
    /\ parse_future st1 = parse_future st
    /\ contents_holder st1 = contents_holder st
    /\ filename_holder st1 = filename_holder st
    /\ last_prepared_diagnostics st1 = last_prepared_diagnostics st
    /\ diagnostic_store st1 = diagnostic_store st.
Proof.
  intros Hpending.
  unfold CandidatesFromStoredRequest, mbind, M_bind, getattr.
  rewrite Hpending.
  destruct (GetResults vim future) as [|r rs]; simpl.
  - eexists. split; [reflexivity|]. simpl. repeat split; auto.
  - eexists. split; [reflexivity|]. rewrite app_nil_r. repeat split; auto.
Qed.

Lemma CandidatesFromStoredRequest_pending_witness :
  exists st1,
    CandidatesFromStoredRequest completing_name completion_pending
    = Returned
        [ {| word := "foo"; abbr := "foo(int)"; menu := "int foo(int)";
             kind := "f"; info := "docs"; dup := 1 |} ] st1
    /\ trace st1 = (trace completion_pending ++ [])%list
    /\ completions_future st1 = completions_future completion_pending
    /\ parse_future st1 = parse_future completion_pending
    /\ contents_holder st1 = contents_holder completion_pending
    /\ filename_holder st1 = filename_holder completion_pending
    /\ last_prepared_diagnostics st1
       = last_prepared_diagnostics completion_pending
    /\ diagnostic_store st1 = diagnostic_store completion_pending.
Proof.
  apply (CandidatesFromStoredRequest_pending completing_name completion_pending
           {| call_index := 0 |}).
  reflexivity.
Defined.

(** A refused request throws away the completion that was pending: right
    after it, [CandidatesFromStoredRequest] returns the empty list, posts
    nothing and does not ask the engine, whatever the engine has ready. *)
Theorem refused_request_discards_pending (vim vim' : Env) (query : string)
    (st : State) :
  UpdatingTranslationUnit vim (current_buffer_name vim) = true
  \/ FlagsForFile vim (current_buffer_name vim) = [] ->
  exists st1,
    CandidatesForQueryAsync vim query st = Returned tt st1
    /\ CandidatesFromStoredRequest vim' st1 = Returned [] st1.
Proof.
  intros Hguard. unfold CandidatesForQueryAsync.
  destruct (UpdatingTranslationUnit vim (current_buffer_name vim)).
  - eexists. split; reflexivity.
  - destruct Hguard as [Hguard|Hguard]; [discriminate|].
    rewrite Hguard. simpl. eexists. split; reflexivity.
Qed.

Lemma refused_request_discards_pending_witness :
  exists st1,
    CandidatesForQueryAsync four_lines_while_parsing "" completion_pending
    = Returned tt st1
    /\ CandidatesFromStoredRequest completing_name st1 = Returned [] st1.
Proof.
  apply (refused_request_discards_pending four_lines_while_parsing
           completing_name "" completion_pending).
  left. reflexivity.
Defined.

(** ** More on the parse path *)

Lemma OnFileReadyToParse_dispatch_run (vim : Env) (st : State) :
  5 <= NumLinesInBuffer vim ->
  UpdatingTranslationUnit vim (current_buffer_name vim) = false ->
  FlagsForFile vim (current_buffer_name vim) <> [] ->
  let chosen := List.filter (qualifies vim) (GetUnsavedBuffers vim) in
  OnFileReadyToParse vim st
  = Returned tt
      {| contents_holder :=
           List.map (fun b => UnsavedFile.contents_ (snapshot_of b)) chosen;
         filename_holder :=
           List.map (fun b => UnsavedFile.filename_ (snapshot_of b)) chosen;
         last_prepared_diagnostics := last_prepared_diagnostics st;
         parse_future := Some {| call_index := List.length (trace st) |};
         completions_future := completions_future st;
         diagnostic_store := diagnostic_store st;
         trace :=
           (trace st
            ++ [CalledUpdateTranslationUnitAsync (current_buffer_name vim)
                  (List.map snapshot_of chosen)
                  (FlagsForFile vim (current_buffer_name vim))])%list |}.
Proof.
  intros Hlines Hidle Hflags chosen. unfold OnFileReadyToParse.
  destruct (Z.ltb_spec (NumLinesInBuffer vim) 5); [lia|].
  rewrite Hidle.
  fold (has_flags (FlagsForFile vim (current_buffer_name vim))).
  apply has_flags_true in Hflags. rewrite Hflags. simpl.
  unfold mbind, M_bind. rewrite GetUnsavedFilesVector_run. reflexivity.
Qed.

Lemma OnFileReadyToParse_clear_run (vim : Env) (st : State) :
  NumLinesInBuffer vim < 5
  \/ (UpdatingTranslationUnit vim (current_buffer_name vim) = false
      /\ FlagsForFile vim (current_buffer_name vim) = []) ->
  OnFileReadyToParse vim st = Returned tt (with_parse_future None st).
Proof.
  intros Hguard. unfold OnFileReadyToParse.
  destruct (Z.ltb_spec (NumLinesInBuffer vim) 5) as [Hfew|Hmany];
    [reflexivity|].
  destruct Hguard as [Hguard|[Hidle Hnone]]; [lia|].
  rewrite Hidle, Hnone. reflexivity.
Qed.

(** A parse request that goes through can be polled at once: the stored
    handle is the one of the engine call just made, which is the last entry
    of the trace, and [DiagnosticsForCurrentFileReady] answers what the
    engine says of that handle, changing nothing. *)
Theorem OnFileReadyToParse_then_poll (vim vim' : Env) (st : State) :
  5 <= NumLinesInBuffer vim ->
  UpdatingTranslationUnit vim (current_buffer_name vim) = false ->
  FlagsForFile vim (current_buffer_name vim) <> [] ->
  exists st1 future,
    OnFileReadyToParse vim st = Returned tt st1
    /\ parse_future st1 = Some future
    /\ trace st1 !! call_index future
       = Some (CalledUpdateTranslationUnitAsync (current_buffer_name vim)
                 (List.map snapshot_of
                    (List.filter (qualifies vim) (GetUnsavedBuffers vim)))
                 (FlagsForFile vim (current_buffer_name vim)))
    /\ DiagnosticsForCurrentFileReady vim' st1
       = Returned (ResultsReady vim' future) st1.
Proof.
  intros Hlines Hidle Hflags.
  rewrite (OnFileReadyToParse_dispatch_run vim st Hlines Hidle Hflags).
  eexists. eexists. split; [reflexivity|]. simpl.
  split; [reflexivity|]. split.
  - rewrite lookup_app_r by reflexivity.
    now rewrite Nat.sub_diag.
  - rewrite DiagnosticsForCurrentFileReady_run. reflexivity.
Qed.

Lemma OnFileReadyToParse_then_poll_witness :
  exists st1 future,
    OnFileReadyToParse editing_a_cpp ClangCompleter_init = Returned tt st1
    /\ parse_future st1 = Some future
    /\ trace st1 !! call_index future
       = Some (CalledUpdateTranslationUnitAsync "a.cpp"
                 (List.map snapshot_of
                    (List.filter (qualifies editing_a_cpp)
                       (GetUnsavedBuffers editing_a_cpp)))
                 ["-x"; "c++"])
    /\ DiagnosticsForCurrentFileReady (parse_finished first_parse (2, 5)) st1
       = Returned (ResultsReady (parse_finished first_parse (2, 5)) future) st1.
Proof.
  apply (OnFileReadyToParse_then_poll editing_a_cpp
           (parse_finished first_parse (2, 5)) ClangCompleter_init).
  - vm_compute. discriminate.
  - reflexivity.
  - discriminate.
Defined.

(** A finished parse is consumed once: when the editor answers for every
    diagnostic kept, the fetch that finds it ready returns, and after it the
    completer reports nothing ready and a further fetch returns the same
    list and changes nothing, whatever the engine then says. *)
Theorem GetDiagnosticsForCurrentFile_consumes_once (MAX : Z) (vim vim' : Env)
    (st : State) :
  parse_ready vim st = true ->
  Forall (editor_answers vim)
    (Py.take MAX (DiagnosticsForFile vim (current_buffer_name vim))) ->
  exists cached st1,
    GetDiagnosticsForCurrentFile MAX vim st = Returned cached st1
    /\ DiagnosticsForCurrentFileReady vim' st1 = Returned false st1
    /\ GetDiagnosticsForCurrentFile MAX vim' st1 = Returned cached st1.
Proof.
  intros Hready Hanswers.
  rewrite GetDiagnosticsForCurrentFile_run, Hready.
  destruct (comprehension_answers vim _ Hanswers) as (prepared & -> & _).
  eexists. eexists. split; [reflexivity|].
  rewrite DiagnosticsForCurrentFileReady_run, GetDiagnosticsForCurrentFile_run.
  split; reflexivity.
Qed.

Lemma GetDiagnosticsForCurrentFile_consumes_once_witness :
  exists cached st1,
    GetDiagnosticsForCurrentFile 30 (parse_finished first_parse (2, 5))
      reparse_pending
    = Returned cached st1
    /\ DiagnosticsForCurrentFileReady (parse_finished second_parse (2, 5)) st1
       = Returned false st1
    /\ GetDiagnosticsForCurrentFile 30 (parse_finished second_parse (2, 5)) st1
       = Returned cached st1.
Proof.
  apply (GetDiagnosticsForCurrentFile_consumes_once 30
           (parse_finished first_parse (2, 5))
           (parse_finished second_parse (2, 5)) reparse_pending).
  - reflexivity.
  - repeat (constructor; [exists 1; reflexivity|]). constructor.
Defined.

(** A negative maximum does not mean none: the slice then drops that many
    diagnostics from the end.  When the editor answers for every diagnostic
    kept, the fetch returns the dictionaries of all the diagnostics but the
    last [- MAX], which are [max 0 (n + MAX)] of [n]. *)
Theorem GetDiagnosticsForCurrentFile_negative_maximum (MAX : Z) (vim : Env)
    (st : State) :
  let diagnostics := DiagnosticsForFile vim (current_buffer_name vim) in
  MAX < 0 ->
  parse_ready vim st = true ->
  Forall (editor_answers vim)
    (firstn (List.length diagnostics - Z.to_nat (- MAX)) diagnostics) ->
  exists cached st1,
    GetDiagnosticsForCurrentFile MAX vim st = Returned cached st1
    /\ List.Forall2 (shown_as vim)
         (firstn (List.length diagnostics - Z.to_nat (- MAX)) diagnostics)
         cached
    /\ Z.of_nat (List.length cached)
       = Z.max 0 (Z.of_nat (List.length diagnostics) + MAX).
Proof.
  intros diagnostics Hneg Hready Hanswers.
  rewrite GetDiagnosticsForCurrentFile_run, Hready. fold diagnostics.
  unfold Py.take. destruct (Z.ltb_spec MAX 0) as [_|?]; [|lia].
  replace (Z.to_nat (Z.max 0 (MAX + Z.of_nat (List.length diagnostics))))
    with (List.length diagnostics - Z.to_nat (- MAX))%nat by lia.
  destruct (comprehension_answers vim _ Hanswers) as (prepared & -> & Hshown).
  eexists. eexists. split; [reflexivity|]. split; [exact Hshown|].
  rewrite <- (List.Forall2_length Hshown), List.length_firstn. lia.
Qed.

Lemma GetDiagnosticsForCurrentFile_negative_maximum_witness :
  exists cached st1,
    GetDiagnosticsForCurrentFile (-1) (parse_finished first_parse (2, 5))
      reparse_pending
    = Returned cached st1
    /\ List.Forall2 (shown_as (parse_finished first_parse (2, 5)))
         (firstn (3 - Z.to_nat (- (-1))) first_parse) cached
    /\ Z.of_nat (List.length cached) = Z.max 0 (3 + -1).
Proof.
  apply (GetDiagnosticsForCurrentFile_negative_maximum (-1)
           (parse_finished first_parse (2, 5)) reparse_pending).
  - lia.
  - reflexivity.
  - repeat (constructor; [exists 1; reflexivity|]). constructor.
Defined.

(** A fetch that raises does not consume the parse.  When the pending
    parse is ready and the editor fails on the buffer number of one of the
    diagnostics kept, [GetDiagnosticsForCurrentFile] raises; the index is
    then already the one of the new diagnostics, but the cached list and
    the parse handle are as before, so the same parse is still reported
    ready. *)
Theorem GetDiagnosticsForCurrentFile_raises (MAX : Z) (vim : Env)
    (st : State) :
  let diagnostics := DiagnosticsForFile vim (current_buffer_name vim) in
  parse_ready vim st = true ->
  Exists (fun d => ~ editor_answers vim d) (Py.take MAX diagnostics) ->
  exists e st1 store,
    GetDiagnosticsForCurrentFile MAX vim st = Raised e st1
    /\ diagnostic_store st1 = Some store
    /\ (forall filename line,
          index_lookup store filename line
          = List.filter (located filename line) diagnostics)
    /\ last_prepared_diagnostics st1 = last_prepared_diagnostics st
    /\ parse_future st1 = parse_future st
    /\ parse_ready vim st1 = true
    /\ trace st1 = trace st.
Proof.
  intros diagnostics Hready Hfails.
  rewrite GetDiagnosticsForCurrentFile_run, Hready. fold diagnostics.
  destruct (comprehension_raises vim _ Hfails) as [e ->].
  exists e. eexists. eexists. split; [reflexivity|]. simpl.
  split; [reflexivity|]. split.
  { intros filename line. apply index_lookup_DiagnosticsToDiagStructure. }
  repeat split. exact Hready.
Qed.

Lemma GetDiagnosticsForCurrentFile_raises_witness :
  exists e st1 store,
    GetDiagnosticsForCurrentFile 30 parse_finished_apostrophe reparse_pending
    = Raised e st1
    /\ diagnostic_store st1 = Some store
    /\ (forall filename line,
          index_lookup store filename line
          = List.filter (located filename line)
              [diag "o'neil.cpp" 3 2 "first"])
    /\ last_prepared_diagnostics st1
       = last_prepared_diagnostics reparse_pending
    /\ parse_future st1 = parse_future reparse_pending
    /\ parse_ready parse_finished_apostrophe st1 = true
    /\ trace st1 = trace reparse_pending.
Proof.
  apply (GetDiagnosticsForCurrentFile_raises 30 parse_finished_apostrophe
           reparse_pending).
  - reflexivity.
  - apply List.Exists_cons_hd. intros [number Hnumber]. discriminate.
Defined.

(** A parse that had finished but was not fetched is lost when the next
    request finds fewer than 5 lines, or no flags with no parse in flight:
    the handle is dropped, and a fetch then returns the list cached before,
    with the index as it was, whatever the engine has ready. *)
Theorem OnFileReadyToParse_discards_unfetched (MAX : Z) (vim vim' : Env)
    (st : State) :
  NumLinesInBuffer vim < 5
  \/ (UpdatingTranslationUnit vim (current_buffer_name vim) = false
      /\ FlagsForFile vim (current_buffer_name vim) = []) ->
  exists st1,
    OnFileReadyToParse vim st = Returned tt st1
    /\ GetDiagnosticsForCurrentFile MAX vim' st1
       = Returned (last_prepared_diagnostics st) st1
    /\ diagnostic_store st1 = diagnostic_store st.
Proof.
  intros Hguard. rewrite (OnFileReadyToParse_clear_run vim st Hguard).
  eexists. split; [reflexivity|].
  rewrite GetDiagnosticsForCurrentFile_run. split; reflexivity.
Qed.

Lemma OnFileReadyToParse_discards_unfetched_witness :
  exists st1,
    OnFileReadyToParse four_lines_while_parsing reparse_pending
    = Returned tt st1
    /\ GetDiagnosticsForCurrentFile 30 (parse_finished second_parse (2, 5)) st1
       = Returned (last_prepared_diagnostics reparse_pending) st1
    /\ diagnostic_store st1 = diagnostic_store reparse_pending.
Proof.
  apply (OnFileReadyToParse_discards_unfetched 30 four_lines_while_parsing
           (parse_finished second_parse (2, 5)) reparse_pending).
  left. reflexivity.
Defined.

(** ** The entries of a built index *)

Lemma entry_store_append (store : DiagStore) (d : Diagnostic.t)
    (filename : string) (line : Z) :
  store_append store d !! filename ≫= lookup line
  = if located filename line d
    then Some (index_lookup store filename line ++ [d])%list
    else store !! filename ≫= lookup line.
Proof.
  unfold index_lookup, store_append, defaultdict_getitem, located.
  destruct (decide (Diagnostic.filename_ d = filename)) as [<-|Hf].
  - rewrite bool_decide_eq_true_2 by reflexivity. simpl.
    destruct (store !! Diagnostic.filename_ d) as [by_line|] eqn:Hfile.
    + destruct (by_line !! Diagnostic.line_number_ d) as [ds|] eqn:Hline;
        rewrite lookup_insert_eq; simpl;
        (destruct (decide (Diagnostic.line_number_ d = line)) as [<-|Hl];
         [ rewrite bool_decide_eq_true_2 by reflexivity;
           rewrite lookup_insert_eq, ?Hline; reflexivity
         | rewrite bool_decide_eq_false_2 by exact Hl;
           rewrite !lookup_insert_ne by exact Hl; reflexivity ]).
    + rewrite lookup_empty, lookup_insert_eq. simpl.
      destruct (decide (Diagnostic.line_number_ d = line)) as [<-|Hl].
      * rewrite bool_decide_eq_true_2 by reflexivity.
        rewrite lookup_insert_eq. reflexivity.
      * rewrite bool_decide_eq_false_2 by exact Hl.
        rewrite !lookup_insert_ne by exact Hl. apply lookup_empty.
  - rewrite bool_decide_eq_false_2 by exact Hf. simpl.
    destruct (store !! Diagnostic.filename_ d) as [by_line|] eqn:Hfile.
    + destruct (by_line !! Diagnostic.line_number_ d) as [ds|];
        rewrite lookup_insert_ne by exact Hf; reflexivity.
    + rewrite lookup_empty, !lookup_insert_ne by exact Hf. reflexivity.
Qed.

Lemma entry_fold_store_append (diagnostics : list Diagnostic.t) :
  forall (store : DiagStore) (filename : string) (line : Z),
    fold_left store_append diagnostics store !! filename ≫= lookup line
    = match List.filter (located filename line) diagnostics with
      | [] => store !! filename ≫= lookup line
      | d :: found =>
          Some (index_lookup store filename line ++ d :: found)%list
      end.
Proof.
  induction diagnostics as [|d rest IH]; intros store filename line; simpl.
  - reflexivity.
  - rewrite IH, entry_store_append, index_lookup_store_append.
    destruct (located filename line d).
    + destruct (List.filter (located filename line) rest);
        [reflexivity|now rewrite <- app_assoc].
    + rewrite app_nil_r. reflexivity.
Qed.

Lemma file_store_append (store : DiagStore) (d : Diagnostic.t)
    (filename : string) :
  is_Some (store_append store d !! filename)
  <-> is_Some (store !! filename) \/ Diagnostic.filename_ d = filename.
Proof.
  unfold store_append, defaultdict_getitem.
  destruct (decide (Diagnostic.filename_ d = filename)) as [<-|Hf].
  - split; [auto|intros _].
    destruct (store !! Diagnostic.filename_ d) as [by_line|];
      [destruct (by_line !! Diagnostic.line_number_ d)|];
      rewrite ?lookup_empty; simpl; rewrite lookup_insert_eq; eauto.
  - assert (Hsame : forall v (s : DiagStore),
              <[Diagnostic.filename_ d := v]> s !! filename = s !! filename)
      by (intros; now apply lookup_insert_ne).
    destruct (store !! Diagnostic.filename_ d) as [by_line|];
      [destruct (by_line !! Diagnostic.line_number_ d)|];
      rewrite ?lookup_empty; simpl; rewrite ?Hsame; split; auto;
      intros [H|H]; auto; contradiction.
Qed.

Lemma file_fold_store_append (diagnostics : list Diagnostic.t) :
  forall (store : DiagStore) (filename : string),
    is_Some (fold_left store_append diagnostics store !! filename)
    <-> is_Some (store !! filename)
        \/ Exists (fun d => Diagnostic.filename_ d = filename) diagnostics.
Proof.
  induction diagnostics as [|d rest IH]; intros store filename; simpl.
  - split; [auto|]. intros [H|H]; [exact H|inversion H].
  - rewrite IH, file_store_append, List.Exists_cons. tauto.
Qed.

(** A freshly built index has an entry for a file exactly when some
    diagnostic is on that file, and an entry for a line of it exactly when
    some diagnostic is on that file and line; that entry is the list of
    those diagnostics in order, so no entry of a built index is an empty
    list. *)
Theorem DiagnosticsToDiagStructure_entries (diagnostics : list Diagnostic.t)
    (filename : string) (line : Z) :
  (is_Some (DiagnosticsToDiagStructure diagnostics !! filename)
   <-> Exists (fun d => Diagnostic.filename_ d = filename) diagnostics)
  /\ DiagnosticsToDiagStructure diagnostics !! filename ≫= lookup line
     = match List.filter (located filename line) diagnostics with
       | [] => None
       | d :: found => Some (d :: found)
       end.
Proof.
  unfold DiagnosticsToDiagStructure. split.
  - rewrite file_fold_store_append, lookup_empty.
    split; [intros [[x Hx]|H]; [discriminate|exact H]|auto].
  - rewrite entry_fold_store_append. unfold index_lookup.
    rewrite lookup_empty. reflexivity.
Qed.

(** ** More on the detailed diagnostic *)

Lemma index_lookup_after_getitem (store : DiagStore) (filename : string)
    (line : Z) (f : string) (l : Z) :
  index_lookup (snd (store_getitem store filename line)) f l
  = index_lookup store f l.
Proof.
  rewrite store_getitem_inserts. unfold index_lookup.
  destruct (decide (filename = f)) as [<-|Hf].
  - rewrite lookup_insert_eq. simpl.
    destruct (decide (line = l)) as [<-|Hl].
    + rewrite lookup_insert_eq. reflexivity.
    + rewrite lookup_insert_ne by exact Hl.
      destruct (store !! filename); simpl; [reflexivity|].
      now rewrite lookup_empty.
  - rewrite lookup_insert_ne by exact Hf. reflexivity.
Qed.

Lemma fetched_index (MAX : Z) (vim : Env) (st : State) :
  parse_ready vim st = true ->
  diagnostic_store (state_of (GetDiagnosticsForCurrentFile MAX vim st))
  = Some (DiagnosticsToDiagStructure
            (DiagnosticsForFile vim (current_buffer_name vim)))
  /\ trace (state_of (GetDiagnosticsForCurrentFile MAX vim st)) = trace st.
Proof.
  intros Hready. rewrite GetDiagnosticsForCurrentFile_run, Hready.
  destruct (Py.comprehension _ _); split; reflexivity.
Qed.

(** Once a ready parse has been fetched, [ShowDetailedDiagnostic] works on
    all the diagnostics the engine had for the buffer that was current at
    the fetch, whatever the display maximum: if one of those on the file and
    line of the cursor is less than 999 columns from it, the long text of
    the first one at the least distance is echoed and nothing is raised. *)
Theorem ShowDetailedDiagnostic_after_fetch (MAX : Z) (vim vim' : Env)
    (st : State) :
  let current_line := fst (CurrentLineAndColumn vim') + 1 in
  let current_column := snd (CurrentLineAndColumn vim') + 1 in
  let on_line :=
    List.filter (located (current_buffer_name vim') current_line)
      (DiagnosticsForFile vim (current_buffer_name vim)) in
  parse_ready vim st = true ->
  Exists (fun e => distance current_column e < 999) on_line ->
  exists before d after st2,
    on_line = (before ++ d :: after)%list
    /\ Forall (fun e => distance current_column d < distance current_column e)
         before
    /\ Forall (fun e => distance current_column d <= distance current_column e)
         after
    /\ ShowDetailedDiagnostic vim'
         (state_of (GetDiagnosticsForCurrentFile MAX vim st))
       = Returned tt st2
    /\ trace st2
       = (trace st ++ [EchoedText (Diagnostic.long_formatted_text_ d)])%list.
Proof.
  intros current_line current_column on_line Hready Hnear.
  destruct (fetched_index MAX vim st Hready) as [Hstore Htrace].
  pose proof (ShowDetailedDiagnostic_nearest vim'
                (state_of (GetDiagnosticsForCurrentFile MAX vim st))
                (DiagnosticsToDiagStructure
                   (DiagnosticsForFile vim (current_buffer_name vim))))
    as Hshow.
  cbv zeta in Hshow.
  rewrite index_lookup_DiagnosticsToDiagStructure, Htrace in Hshow.
  exact (Hshow Hstore Hnear).
Qed.

Lemma ShowDetailedDiagnostic_after_fetch_witness :
  exists before d after st2,
    List.filter (located "a.cpp" 3) first_parse = (before ++ d :: after)%list
    /\ Forall (fun e => distance 9 d < distance 9 e) before
    /\ Forall (fun e => distance 9 d <= distance 9 e) after
    /\ ShowDetailedDiagnostic (parse_finished [] (2, 8))
         (state_of (GetDiagnosticsForCurrentFile 1
                      (parse_finished first_parse (0, 0)) reparse_pending))
       = Returned tt st2
    /\ trace st2
       = (trace reparse_pending
          ++ [EchoedText (Diagnostic.long_formatted_text_ d)])%list.
Proof.
  apply (ShowDetailedDiagnostic_after_fetch 1
           (parse_finished first_parse (0, 0)) (parse_finished [] (2, 8))
           reparse_pending).
  - reflexivity.
  - apply List.Exists_cons_tl, List.Exists_cons_hd. vm_compute. reflexivity.
Defined.


(** Looking never changes what a later look finds: after
    [ShowDetailedDiagnostic], raised or not, the index gives for every file
    and line the diagnostics it gave before, and the handles, the holders
    and the cached list are as they were. *)
Theorem ShowDetailedDiagnostic_keeps_reads (vim : Env) (st : State)
    (store : DiagStore) :
  diagnostic_store st = Some store ->
  exists store1,
    diagnostic_store (state_of (ShowDetailedDiagnostic vim st)) = Some store1
    /\ (forall f l, index_lookup store1 f l = index_lookup store f l)
    /\ parse_future (state_of (ShowDetailedDiagnostic vim st))
       = parse_future st
    /\ completions_future (state_of (ShowDetailedDiagnostic vim st))
       = completions_future st
    /\ contents_holder (state_of (ShowDetailedDiagnostic vim st))
       = contents_holder st
    /\ filename_holder (state_of (ShowDetailedDiagnostic vim st))
       = filename_holder st
    /\ last_prepared_diagnostics (state_of (ShowDetailedDiagnostic vim st))
       = last_prepared_diagnostics st.
Proof.
  intros Hstore.
  rewrite (ShowDetailedDiagnostic_run vim st store Hstore).
  exists (snd (store_getitem store (current_buffer_name vim)
                 (fst (CurrentLineAndColumn vim) + 1))).
  assert (Hreads := index_lookup_after_getitem store (current_buffer_name vim)
                      (fst (CurrentLineAndColumn vim) + 1)).
  destruct (index_lookup store (current_buffer_name vim)
              (fst (CurrentLineAndColumn vim) + 1)) as [|d ds];
    [|destruct (fst (fold_left _ _ _))]; simpl; repeat split; auto.
Qed.

Lemma ShowDetailedDiagnostic_keeps_reads_witness :
  exists store1,
    diagnostic_store
      (state_of (ShowDetailedDiagnostic (parse_finished [] (98, 0))
                   reparse_pending))
    = Some store1
    /\ (forall f l,
          index_lookup store1 f l
          = index_lookup (DiagnosticsToDiagStructure first_parse) f l)
    /\ parse_future
         (state_of (ShowDetailedDiagnostic (parse_finished [] (98, 0))
                      reparse_pending))
       = parse_future reparse_pending
    /\ completions_future
         (state_of (ShowDetailedDiagnostic (parse_finished [] (98, 0))
                      reparse_pending))
       = completions_future reparse_pending
    /\ contents_holder
         (state_of (ShowDetailedDiagnostic (parse_finished [] (98, 0))
                      reparse_pending))
       = contents_holder reparse_pending
    /\ filename_holder
         (state_of (ShowDetailedDiagnostic (parse_finished [] (98, 0))
                      reparse_pending))
       = filename_holder reparse_pending
    /\ last_prepared_diagnostics
         (state_of (ShowDetailedDiagnostic (parse_finished [] (98, 0))
                      reparse_pending))
       = last_prepared_diagnostics reparse_pending.
Proof.
  apply (ShowDetailedDiagnostic_keeps_reads (parse_finished [] (98, 0))
           reparse_pending (DiagnosticsToDiagStructure first_parse)).
  reflexivity.
Defined.

(** ** What holds throughout a session *)

Lemma batch_ok (vim : Env) :
  Forall snapshot_ok
    (List.map snapshot_of
       (List.filter (qualifies vim) (GetUnsavedBuffers vim))).
Proof.
  apply List.Forall_forall. intros file Hin.
  apply List.in_map_iff in Hin as (buffer & <- & Hin).
  apply List.filter_In in Hin as [_ Hq].
  exact (snapshot_of_ok vim buffer Hq).
Qed.

Lemma comprehension_length {A B : Type} (f : A -> Py.exn + B) (xs : list A)
    (ys : list B) :
  Py.comprehension f xs = inr ys -> List.length ys = List.length xs.
Proof.
  revert ys. induction xs as [|x rest IH]; intros ys; simpl.
  - intros Heq. injection Heq as <-. reflexivity.
  - destruct (f x); [discriminate|].
    destruct (Py.comprehension f rest); [discriminate|].
    intros Heq. injection Heq as <-. simpl. now rewrite (IH _ eq_refl).
Qed.

(** What one call changes: the trace gets at most one effect more, an
    engine call of it is well formed, a handle is kept, cleared, or set to
    the engine call just made, and the cached list is kept or replaced by
    a list as long as the capped list of a consumption. *)
Lemma run_call_step (MAX : Z) (call : Call) (vim : Env) (st : State) :
  let st1 := run_call MAX call vim st in
  (exists effects,
     trace st1 = (trace st ++ effects)%list
     /\ (List.length effects <= 1)%nat
     /\ Forall engine_call_ok effects)
  /\ (parse_future st1 = parse_future st
      \/ parse_future st1 = None
      \/ exists filename files flags,
           parse_future st1 = Some {| call_index := List.length (trace st) |}
           /\ trace st1
              = (trace st
                 ++ [CalledUpdateTranslationUnitAsync filename files flags])%list)
  /\ (completions_future st1 = completions_future st
      \/ completions_future st1 = Some None
      \/ exists query filename line column files flags,
           completions_future st1
           = Some (Some {| call_index := List.length (trace st) |})
           /\ trace st1
              = (trace st
                 ++ [CalledCandidatesForQueryAndLocationInFileAsync
                       query filename line column files flags])%list)
  /\ (last_prepared_diagnostics st1 = last_prepared_diagnostics st
      \/ List.length (last_prepared_diagnostics st1)
         = List.length
             (Py.take MAX (DiagnosticsForFile vim (current_buffer_name vim)))).
Proof.
  assert (Hnone : forall s : State,
            exists effects, trace s = (trace s ++ effects)%list
                            /\ (List.length effects <= 1)%nat
                            /\ Forall engine_call_ok effects).
  { intros s. exists []. rewrite app_nil_r. repeat split; auto. }
  assert (Hone : forall (s : State) e,
            engine_call_ok e ->
            exists effects, (trace s ++ [e])%list = (trace s ++ effects)%list
                            /\ (List.length effects <= 1)%nat
                            /\ Forall engine_call_ok effects).
  { intros s e He. exists [e]. repeat split; auto. }
  destruct call; simpl.
  - (* CandidatesForQueryAsync *)
    unfold CandidatesForQueryAsync.
    destruct (UpdatingTranslationUnit vim (current_buffer_name vim)).
    { simpl. split; [apply Hone; exact I|]. auto. }
    fold (has_flags (FlagsForFile vim (current_buffer_name vim))).
    destruct (has_flags (FlagsForFile vim (current_buffer_name vim)))
      eqn:Hflags; simpl.
    2:{ split; [apply Hone; exact I|]. auto. }
    apply has_flags_true in Hflags.
    unfold mbind, M_bind.
    destruct (Py.truthy_str query) eqn:Hquery; simpl.
    + split.
      { apply Hone. simpl. split; [exact Hflags|]. split; auto. }
      split; [auto|]. split; [|auto].
      right. right. repeat eexists.
    + rewrite GetUnsavedFilesVector_run. simpl. split.
      { apply (Hone st). simpl. split; [exact Hflags|].
        split; [apply batch_ok|].
        intros Hq. apply truthy_str_true in Hq. congruence. }
      split; [auto|]. split; [|auto].
      right. right. repeat eexists.
  - (* CandidatesFromStoredRequest *)
    unfold CandidatesFromStoredRequest, mbind, M_bind, getattr.
    destruct (completions_future st) as [[future|]|] eqn:Hcf; simpl;
      [|split; [apply Hnone|]; rewrite ?Hcf; auto
       |split; [apply Hnone|]; rewrite ?Hcf; auto].
    destruct (List.map CompletionDataToDict (GetResults vim future)); simpl.
    + split; [apply Hone; exact I|]. rewrite ?Hcf. auto.
    + split; [apply Hnone|]. rewrite ?Hcf. auto.
  - (* OnFileReadyToParse *)
    unfold OnFileReadyToParse.
    destruct (NumLinesInBuffer vim <? 5).
    { simpl. split; [apply Hnone|]. auto. }
    destruct (UpdatingTranslationUnit vim (current_buffer_name vim)).
    { simpl. split; [apply Hnone|]. auto. }
    fold (has_flags (FlagsForFile vim (current_buffer_name vim))).
    destruct (has_flags (FlagsForFile vim (current_buffer_name vim)))
      eqn:Hflags; simpl.
    2:{ split; [apply Hnone|]. auto. }
    apply has_flags_true in Hflags.
    unfold mbind, M_bind. rewrite GetUnsavedFilesVector_run. simpl. split.
    { apply (Hone st). simpl. split; [exact Hflags|apply batch_ok]. }
    split; [|auto]. right. right. repeat eexists.
  - (* DiagnosticsForCurrentFileReady *)
    rewrite DiagnosticsForCurrentFileReady_run. simpl.
    split; [apply Hnone|]. auto.
  - (* GetDiagnosticsForCurrentFile *)
    rewrite GetDiagnosticsForCurrentFile_run.
    destruct (parse_ready vim st); simpl.
    + destruct (Py.comprehension _ _) as [e|prepared] eqn:Hprepared; simpl.
      * split; [apply Hnone|]. auto.
      * split; [apply Hnone|]. split; [auto|]. split; [auto|].
        right. exact (comprehension_length _ _ _ Hprepared).
    + split; [apply Hnone|]. auto.
  - (* ShowDetailedDiagnostic *)
    destruct (diagnostic_store st) as [store|] eqn:Hstore.
    + rewrite (ShowDetailedDiagnostic_run vim st store Hstore).
      destruct (index_lookup store (current_buffer_name vim)
                  (fst (CurrentLineAndColumn vim) + 1)) as [|d ds];
        [|destruct (fst (fold_left _ _ _))]; simpl.
      * split; [apply (Hone st); exact I|]. auto.
      * split; [apply (Hone st); exact I|]. auto.
      * split; [apply Hnone|]. auto.
    + unfold ShowDetailedDiagnostic, mbind, M_bind, getattr. rewrite Hstore.
      simpl. split; [apply Hnone|]. auto.
Qed.

Lemma run_session_invariant (Inv : State -> Prop) (MAX : Z) :
  (forall call vim st, Inv st -> Inv (run_call MAX call vim st)) ->
  forall session st, Inv st -> Inv (run_session MAX session st).
Proof.
  intros Hstep session.
  induction session as [|[call vim] rest IH]; intros st Hst; simpl.
  - exact Hst.
  - apply IH, Hstep, Hst.
Qed.

(** Every method call has at most one effect outside the completer: it
    posts one message, echoes one text or calls the engine once, or does
    none of these; and what was in the trace stays. *)
Theorem run_call_one_effect (MAX : Z) (call : Call) (vim : Env) (st : State) :
  exists effects,
    trace (run_call MAX call vim st) = (trace st ++ effects)%list
    /\ (List.length effects <= 1)%nat.
Proof.
  destruct (run_call_step MAX call vim st)
    as ((effects & Htrace & Hlen & _) & _).
  exists effects. split; assumption.
Qed.

(** Whatever the editor calls, in whatever order and whatever the engine
    answers, every call the completer makes to the engine carries flags that
    are not empty and a batch whose snapshots all have contents, a name and
    the right length; and a completion call with a query carries no
    snapshot. *)
Theorem session_engine_calls_ok (MAX : Z) (session : list (Call * Env)) :
  Forall engine_call_ok
    (trace (run_session MAX session ClangCompleter_init)).
Proof.
  apply (run_session_invariant
           (fun st => Forall engine_call_ok (trace st)) MAX).
  - intros call vim st Hst.
    destruct (run_call_step MAX call vim st)
      as ((effects & -> & _ & Hok) & _).
    apply List.Forall_app. split; assumption.
  - constructor.
Qed.

(** Throughout a session the handles point where they should: a stored
    parse handle is the handle of a translation-unit update the completer
    made, and a stored completion handle that of a completion query it
    made. *)
Theorem session_handles_name_calls (MAX : Z) (session : list (Call * Env)) :
  let st := run_session MAX session ClangCompleter_init in
  names_parse_call (trace st) (parse_future st)
  /\ names_completion_call (trace st) (completions_future st).
Proof.
  apply (run_session_invariant
           (fun st => names_parse_call (trace st) (parse_future st)
                      /\ names_completion_call (trace st)
                           (completions_future st)) MAX).
  - intros call vim st [Hparse Hcompletion].
    destruct (run_call_step MAX call vim st)
      as ((effects & Htrace & _) & Hpf & Hcf & _).
    split.
    + destruct Hpf as [->|[->|(filename & files & flags & -> & ->)]].
      * rewrite Htrace. unfold names_parse_call in *.
        destruct (parse_future st) as [future|]; [|exact I].
        destruct Hparse as (filename & files & flags & Hat).
        exists filename, files, flags.
        rewrite lookup_app_l; [exact Hat|].
        apply lookup_lt_Some in Hat. exact Hat.
      * exact I.
      * simpl. exists filename, files, flags.
        rewrite lookup_app_r by reflexivity. now rewrite Nat.sub_diag.
    + destruct Hcf as [->|[->|(q & f & l & c & fs & fl & -> & ->)]].
      * rewrite Htrace. unfold names_completion_call in *.
        destruct (completions_future st) as [[future|]|]; try exact I.
        destruct Hcompletion as (q & f & l & c & fs & fl & Hat).
        exists q, f, l, c, fs, fl.
        rewrite lookup_app_l; [exact Hat|].
        apply lookup_lt_Some in Hat. exact Hat.
      * exact I.
      * simpl. exists q, f, l, c, fs, fl.
        rewrite lookup_app_r by reflexivity. now rewrite Nat.sub_diag.
  - split; exact I.
Qed.

(** With a maximum that is a count, the cached list of diagnostics never
    holds more than the maximum, at any point of any session. *)
Theorem session_cache_bounded (MAX : Z) (session : list (Call * Env)) :
  0 <= MAX ->
  Z.of_nat
    (List.length
       (last_prepared_diagnostics
          (run_session MAX session ClangCompleter_init)))
  <= MAX.
Proof.
  intros HMAX.
  apply (run_session_invariant
           (fun st => Z.of_nat (List.length (last_prepared_diagnostics st))
                      <= MAX) MAX).
  - intros call vim st Hst.
    destruct (run_call_step MAX call vim st) as (_ & _ & _ & [->| ->]).
    + exact Hst.
    + rewrite take_nonneg by exact HMAX.
      rewrite List.length_firstn. lia.
  - simpl. exact HMAX.
Qed.

Lemma session_cache_bounded_witness :
  Z.of_nat
    (List.length
       (last_prepared_diagnostics
          (run_session 2
             [(CallOnFileReadyToParse, editing_a_cpp);
              (CallGetDiagnosticsForCurrentFile,
               parse_finished first_parse (2, 5))]
             ClangCompleter_init)))
  <= 2.
Proof.
  apply (session_cache_bounded 2
           [(CallOnFileReadyToParse, editing_a_cpp);
            (CallGetDiagnosticsForCurrentFile,
             parse_finished first_parse (2, 5))]).
  lia.
Defined.

Lemma ShowDetailedDiagnostic_completions_future (vim : Env) (st : State) :
  completions_future (state_of (ShowDetailedDiagnostic vim st))
  = completions_future st.
Proof.
  destruct (diagnostic_store st) as [store|] eqn:Hstore.
  - rewrite (ShowDetailedDiagnostic_run vim st store Hstore).
    destruct (index_lookup store (current_buffer_name vim)
                (fst (CurrentLineAndColumn vim) + 1)) as [|d ds];
      [|destruct (fst (fold_left _ _ _))]; reflexivity.
  - unfold ShowDetailedDiagnostic, mbind, M_bind, getattr. rewrite Hstore.
    reflexivity.
Qed.

Lemma OnFileReadyToParse_completions_future (vim : Env) (st : State) :
  completions_future (state_of (OnFileReadyToParse vim st))
  = completions_future st.
Proof.
  unfold OnFileReadyToParse.
  destruct (NumLinesInBuffer vim <? 5); [reflexivity|].
  destruct (UpdatingTranslationUnit vim (current_buffer_name vim));
    [reflexivity|].
  destruct (negb _); [reflexivity|].
  unfold mbind, M_bind. rewrite GetUnsavedFilesVector_run. reflexivity.
Qed.

Lemma CandidatesFromStoredRequest_completions_future (vim : Env)
    (st : State) :
  completions_future (state_of (CandidatesFromStoredRequest vim st))
  = completions_future st.
Proof.
  unfold CandidatesFromStoredRequest, mbind, M_bind, getattr.
  destruct (completions_future st) as [[future|]|] eqn:Hcf; simpl;
    try exact Hcf.
  destruct (List.map CompletionDataToDict (GetResults vim future)); simpl;
    exact Hcf.
Qed.

Lemma run_call_completions_future (MAX : Z) (call : Call) (vim : Env)
    (st : State) :
  is_Some (completions_future (run_call MAX call vim st))
  <-> is_Some (completions_future st) \/ is_completion_request call = true.
Proof.
  assert (Hsame : forall st1 : State,
            completions_future st1 = completions_future st ->
            is_Some (completions_future st1)
            <-> is_Some (completions_future st) \/ false = true).
  { intros st1 ->. split; [auto|intros [H|H]; [exact H|discriminate]]. }
  destruct call; simpl.
  - destruct (CandidatesForQueryAsync_assigns vim query st)
      as (st1 & handle & -> & Hset).
    simpl. rewrite Hset. split; eauto.
  - apply Hsame, CandidatesFromStoredRequest_completions_future.
  - apply Hsame, OnFileReadyToParse_completions_future.
  - apply Hsame. rewrite DiagnosticsForCurrentFileReady_run. reflexivity.
  - apply Hsame. rewrite GetDiagnosticsForCurrentFile_run.
    destruct (parse_ready vim st); [|reflexivity].
    destruct (Py.comprehension _ _); reflexivity.
  - apply Hsame, ShowDetailedDiagnostic_completions_future.
Qed.

Lemma run_session_completions_future (MAX : Z)
    (session : list (Call * Env)) :
  forall st,
    is_Some (completions_future (run_session MAX session st))
    <-> is_Some (completions_future st)
        \/ existsb (fun step => is_completion_request (fst step)) session
           = true.
Proof.
  induction session as [|[call vim] rest IH]; intros st; simpl.
  - split; [auto|intros [H|H]; [exact H|discriminate]].
  - rewrite IH, run_call_completions_future, orb_true_iff. tauto.
Qed.

(** In a session that starts with a fresh completer,
    [CandidatesFromStoredRequest] raises exactly when no
    [CandidatesForQueryAsync] was called before it: the first request,
    served or refused, creates the attribute and no method removes it. *)
Theorem session_fetch_raises_iff (MAX : Z) (session : list (Call * Env))
    (vim : Env) :
  (exists e st1,
     CandidatesFromStoredRequest vim
       (run_session MAX session ClangCompleter_init)
     = Raised e st1)
  <-> existsb (fun step => is_completion_request (fst step)) session = false.
Proof.
  pose proof (run_session_completions_future MAX session ClangCompleter_init)
    as Hset.
  simpl in Hset.
  unfold CandidatesFromStoredRequest, mbind, M_bind, getattr.
  destruct (completions_future (run_session MAX session ClangCompleter_init))
    as [[future|]|].
  - split.
    + intros (e & st1 & Hraise).
      destruct (List.map CompletionDataToDict (GetResults vim future));
        discriminate.
    + intros Hnone. exfalso.
      destruct Hset as [Hset _].
      destruct (Hset (ex_intro _ _ eq_refl)) as [[x Hx]|Hsome];
        [discriminate|congruence].
  - split.
    + intros (e & st1 & Hraise). discriminate.
    + intros Hnone. exfalso.
      destruct Hset as [Hset _].
      destruct (Hset (ex_intro _ _ eq_refl)) as [[x Hx]|Hsome];
        [discriminate|congruence].
  - split.
    + intros _.
      destruct (existsb _ session); [|reflexivity].
      destruct Hset as [_ Hset].
      destruct (Hset (or_intror eq_refl)) as [x Hx]. discriminate.
    + intros _. eauto.
Qed.
